(** * Asura AI model dispatch layer: rate limiting, task routing, fallback
    and stream decoding.

    Shallow embedding of
    - [src/api/providers/base-provider.ts]   (module [BaseProvider]),
    - [src/api/orchestrator]                 (module [Orchestrator]),
    - [src/api/providers/openai-provider.ts] and
      [src/api/providers/anthropic-provider.ts] (module [Streaming]).

    JavaScript numbers that hold counters, token counts and millisecond
    timestamps are integers in every call path of the program and are
    modelled as [Z]; optional fields are [option]. *)

From Stdlib Require Import ZArith QArith Lia Bool Ascii String Sorting.Sorted.
From Stdlib Require Import DecimalString.
From stdpp Require Import gmap strings list.

Local Open Scope Z_scope.

(** ** JavaScript helpers *)

(** Truthiness of an optional number: [undefined] and [0] are falsy. *)
Definition truthy (n : option Z) : bool :=
  match n with
  | Some v => negb (v =? 0)
  | None => false
  end.

(** [Math.ceil(x / d)] for integers [x] and a positive integer [d]. The
    source divides two integers far below 2^53, so the floating-point
    quotient rounds up to the integer ceiling. *)
Definition Math_ceil_div (x d : Z) : Z := - ((- x) / d).

(** [a || b] on numbers: the left operand unless it is absent or zero. *)
Definition or_default_Z (a : option Z) (b : Z) : Z :=
  match a with
  | Some v => if v =? 0 then b else v
  | None => b
  end.

Definition or_default_Q (a : option Q) (b : Q) : Q :=
  match a with
  | Some v => if Qeq_bool v 0 then b else v
  | None => b
  end.

(** [!!s] for an optional string: absent and empty strings are falsy. *)
Definition truthy_string (s : option string) : bool :=
  match s with
  | Some v => negb (String.eqb v "")
  | None => false
  end.

(** [arr.includes(x)] on an array of strings. *)
Definition includes (arr : list string) (x : string) : bool :=
  existsb (String.eqb x) arr.

(** [Array.prototype.sort(compare)]: the built-in sort is stable and orders
    [a] before [b] when [compare(a, b) <= 0] keeps them in place. It is
    modelled by a stable insertion sort; [compare] returns an integer. *)
Section ArraySort.
Context {A : Type}.
Variable compare : A -> A -> Z.

Fixpoint sort_insert (a : A) (l : list A) : list A :=
    match l with
    | [] => [a]
    | b :: l' => if compare a b <=? 0 then a :: b :: l' else b :: sort_insert a l'
    end.

Fixpoint Array_sort (l : list A) : list A :=
    match l with
    | [] => []
    | a :: l' => sort_insert a (Array_sort l')
    end.
End ArraySort.

(** Values shared by the providers and the orchestrator. *)
Record Usage := mkUsage {
  promptTokens : Z;
  completionTokens : Z;
  totalTokens : Z
}.

Record ApiResponse := mkApiResponse {
  id : string;
  model : string;
  content : string;
  usage : Usage;
  finishReason : string;
  created : Q
}.

Record ApiRequestOptions := mkApiRequestOptions {
  opt_model : string;
  opt_maxTokens : option Z;
  opt_temperature : option Q;
  opt_stream : option bool
}.

(** A thrown [Error] object with the extra properties the providers attach
    ([code], [type], [retryAfter]); a plain [new Error(msg)] has none. *)
Record ErrorObj := mkErrorObj {
  message : string;
  err_code : option string;
  err_type : option string;
  err_retryAfter : option Z
}.

Definition Error (msg : string) : ErrorObj := mkErrorObj msg None None None.

(** ** base-provider.ts *)
Module BaseProvider.

Record RateLimitState := mkRateLimitState {
  requestsThisMinute : Z;
  tokensThisMinute : Z;
  lastRequestTime : Z;
  lastResetTime : Z
}.

(** The fields of [ApiProviderConfig] that the rate limiter reads. *)
Record ApiProviderConfig := mkApiProviderConfig {
  rateLimitRPM : option Z;
  rateLimitTPM : option Z
}.

(** Result object of [checkRateLimit]: [{ allowed, retryAfter? }]. *)
Record RateLimitCheck := mkRateLimitCheck {
  allowed : bool;
  retryAfter : option Z
}.

(** [checkRateLimit(estimatedTokens)], with [Date.now()] passed in as [now]
    and [this.rateLimitState] threaded explicitly. *)
Definition checkRateLimit (config : ApiProviderConfig) (now estimatedTokens : Z)
    (st : RateLimitState) : RateLimitCheck * RateLimitState :=
  let elapsedSinceReset := now - lastResetTime st in
  if 60000 <=? elapsedSinceReset then
    (mkRateLimitCheck true None, mkRateLimitState 0 0 now now)
  else if truthy (rateLimitRPM config)
          && match rateLimitRPM config with
             | Some rpm => rpm <=? requestsThisMinute st
             | None => false
             end then
    (mkRateLimitCheck false (Some (Math_ceil_div (60000 - elapsedSinceReset) 1000)), st)
  else if truthy (rateLimitTPM config)
          && match rateLimitTPM config with
             | Some tpm => tpm <? tokensThisMinute st + estimatedTokens
             | None => false
             end then
    (mkRateLimitCheck false (Some (Math_ceil_div (60000 - elapsedSinceReset) 1000)), st)
  else
    (mkRateLimitCheck true None, st).

(** [updateRateLimitCounters(tokens)]. *)
Definition updateRateLimitCounters (now tokens : Z) (st : RateLimitState)
    : RateLimitState :=
  let elapsedSinceReset := now - lastResetTime st in
  if 60000 <=? elapsedSinceReset then
    mkRateLimitState 1 tokens now now
  else
    mkRateLimitState (requestsThisMinute st + 1) (tokensThisMinute st + tokens)
                     now (lastResetTime st).

(** One admitted and completed provider call: the pre-flight check at
    [checkAt] with the token estimate, then, the check having allowed it,
    the counter update at [updateAt] with the real usage. A provider method
    throws on a rejected check and never reaches the update. *)
Record CompletedCall := mkCompletedCall {
  checkAt : Z;
  estimated : Z;
  updateAt : Z;
  actual : Z
}.

Definition performCall (config : ApiProviderConfig) (c : CompletedCall)
    (st : RateLimitState) : option RateLimitState :=
  let '(r, st1) := checkRateLimit config (checkAt c) (estimated c) st in
  if allowed r then Some (updateRateLimitCounters (updateAt c) (actual c) st1)
  else None.

Fixpoint performCalls (config : ApiProviderConfig) (cs : list CompletedCall)
    (st : RateLimitState) : option RateLimitState :=
  match cs with
  | [] => Some st
  | c :: cs' =>
      match performCall config c st with
      | Some st' => performCalls config cs' st'
      | None => None
      end
  end.

(** A timestamp lies in the 60 s window that [st] is counting. *)
Definition inWindow (st : RateLimitState) (t : Z) : Prop :=
  lastResetTime st <= t < lastResetTime st + 60000.

(** *** The rate-limit algorithm as the specification words it

    The description is parametric in when the two thresholds count as
    exceeded, so that the wording of the specification and the guarded
    comparison of the code can both be plugged in. *)
Section Algorithm.
Variable over_rpm : RateLimitState -> Prop.
Variable over_tpm : RateLimitState -> Z -> Prop.

Definition is_ceil_of_seconds (ms r : Z) : Prop :=
    1000 * (r - 1) < ms <= 1000 * r.

Definition check_spec (now estimatedTokens : Z) (w : RateLimitState)
      (out : RateLimitCheck * RateLimitState) : Prop :=
    let elapsed := now - lastResetTime w in
    (60000 <= elapsed ->
       allowed out.1 = true /\
       requestsThisMinute out.2 = 0 /\ tokensThisMinute out.2 = 0 /\
       lastResetTime out.2 = now) /\
    (elapsed < 60000 -> over_rpm w \/ over_tpm w estimatedTokens ->
       allowed out.1 = false /\
       exists r, retryAfter out.1 = Some r /\ is_ceil_of_seconds (60000 - elapsed) r) /\
    (elapsed < 60000 -> ~ (over_rpm w \/ over_tpm w estimatedTokens) ->
       allowed out.1 = true).

Definition update_spec (now actualTokens : Z) (w w' : RateLimitState) : Prop :=
    let elapsed := now - lastResetTime w in
    (elapsed < 60000 ->
       requestsThisMinute w' = requestsThisMinute w + 1 /\
       tokensThisMinute w' = tokensThisMinute w + actualTokens /\
       lastResetTime w' = lastResetTime w) /\
    (60000 <= elapsed ->
       requestsThisMinute w' = 1 /\ tokensThisMinute w' = actualTokens /\
       lastResetTime w' = now).
End Algorithm.

(** Thresholds as the specification compares them: a plain [>=] and [>]
    against the configured number (a comparison with an absent limit is
    false in JavaScript). *)
Definition over_rpm_plain (config : ApiProviderConfig) (w : RateLimitState) : Prop :=
  match rateLimitRPM config with
  | Some rpm => rpm <= requestsThisMinute w
  | None => False
  end.

Definition over_tpm_plain (config : ApiProviderConfig) (w : RateLimitState)
    (est : Z) : Prop :=
  match rateLimitTPM config with
  | Some tpm => tpm < tokensThisMinute w + est
  | None => False
  end.

(** Thresholds as the code guards them: a limit of [0] is no limit. *)
Definition over_rpm_guarded (config : ApiProviderConfig) (w : RateLimitState) : Prop :=
  match rateLimitRPM config with
  | Some rpm => rpm <> 0 /\ rpm <= requestsThisMinute w
  | None => False
  end.

Definition over_tpm_guarded (config : ApiProviderConfig) (w : RateLimitState)
    (est : Z) : Prop :=
  match rateLimitTPM config with
  | Some tpm => tpm <> 0 /\ tpm < tokensThisMinute w + est
  | None => False
  end.

End BaseProvider.

(** ** The orchestrator (src/api/orchestrator) *)
Module Orchestrator.

Inductive FallbackBehavior := fb_error | fb_retry | fb_alternative.

Record ModelConfig := mkModelConfig {
  provider : string;
  modelId : string;
  enabled : bool;
  priority : Z;
  capabilities : list string;
  contextWindow : Z
}.

(** [config.models] is an object; its entries are kept in enumeration
    order, one entry per key. [config.providers] is only read while the
    registry is built and is represented by the registry itself. *)
Record OrchestratorConfig := mkOrchestratorConfig {
  models : list (string * ModelConfig);
  timeoutMs : Z;
  fallbackBehavior : FallbackBehavior
}.

Record TaskOptions := mkTaskOptions {
  temperature : option Q;
  maxTokens : option Z;
  stream : option bool
}.

(** The fields of [AITask] read by the functions below ([context],
    [filePath] and [selection] only feed the message text). *)
Record AITask := mkAITask {
  type : string;
  query : string;
  options : option TaskOptions
}.

Record TaskSelector := mkTaskSelector {
  name : string;
  predicate : AITask -> bool;
  modelPriority : list string
}.

(** What the orchestrator reads of a [BaseApiProvider] instance. *)
Record Provider := mkProvider {
  providerId : string;
  apiKey : option string
}.

(** [BaseApiProvider.isConfigured]. *)
Definition isConfigured (p : Provider) : bool := truthy_string (apiKey p).

(** [this.config.models[modelName]]. *)
Fixpoint models_get (ms : list (string * ModelConfig)) (modelName : string)
    : option ModelConfig :=
  match ms with
  | [] => None
  | (k, v) :: ms' => if String.eqb k modelName then Some v else models_get ms' modelName
  end.

(** The same configuration under another fallback policy. *)
Definition setFallback (fb : FallbackBehavior) (config : OrchestratorConfig)
    : OrchestratorConfig :=
  mkOrchestratorConfig (models config) (timeoutMs config) fb.

(** *** Selectors *)

Definition defaultSelector : TaskSelector :=
  mkTaskSelector "default" (fun _ => true) ["general-purpose"; "fallback"].

Definition builtinSelectors : list TaskSelector :=
  [ mkTaskSelector "code-generation"
      (fun task => String.eqb (type task) "generate" || String.eqb (type task) "complete")
      ["code-specialist"; "general-purpose"; "fallback"];
    mkTaskSelector "explanation"
      (fun task => String.eqb (type task) "explain" || String.eqb (type task) "document")
      ["explanation-specialist"; "general-purpose"; "fallback"];
    mkTaskSelector "refactoring"
      (fun task => String.eqb (type task) "refactor")
      ["code-specialist"; "general-purpose"; "fallback"];
    mkTaskSelector "testing"
      (fun task => String.eqb (type task) "test")
      ["code-specialist"; "general-purpose"; "fallback"];
    defaultSelector ].

(** [registerDefaultSelectors]: five [push]es onto [this.modelSelectors]. *)
Definition registerDefaultSelectors (modelSelectors : list TaskSelector)
    : list TaskSelector :=
  modelSelectors ++ builtinSelectors.

(** [addTaskSelector]: [unshift]. *)
Definition addTaskSelector (selector : TaskSelector)
    (modelSelectors : list TaskSelector) : list TaskSelector :=
  selector :: modelSelectors.

(** [this.modelSelectors.find(s => s.predicate(task))]. *)
Definition findSelector (task : AITask) (modelSelectors : list TaskSelector)
    : option TaskSelector :=
  List.find (fun s => predicate s task) modelSelectors.

(** The selector lists an orchestrator can hold once its constructor's
    asynchronous [initialize] has registered the built-in selectors:
    [customs] are the selectors passed to [addTaskSelector], before or
    after that registration. *)
Inductive registered : list TaskSelector -> list TaskSelector -> Prop :=
  | registered_defaults early :
      registered early (registerDefaultSelectors early)
  | registered_add selector customs modelSelectors :
      registered customs modelSelectors ->
      registered (selector :: customs) (addTaskSelector selector modelSelectors).

(** *** Request options *)

Definition getTemperatureForTask (task : AITask) : Q :=
  if String.eqb (type task) "generate" || String.eqb (type task) "complete" then 7 # 10
  else if String.eqb (type task) "explain" || String.eqb (type task) "document" then 3 # 10
  else if String.eqb (type task) "refactor" || String.eqb (type task) "test" then 2 # 10
  else 5 # 10.

Definition getMaxTokensForTask (task : AITask) : Z :=
  if String.eqb (type task) "explain" || String.eqb (type task) "document" then 2000
  else if String.eqb (type task) "generate" || String.eqb (type task) "complete" then 1500
  else if String.eqb (type task) "refactor" then 1000
  else 1000.

(** The [options] object built at the top of [executeWithModel];
    [streaming] tells whether a stream callback was passed. *)
Definition requestOptions (modelId : string) (task : AITask) (streaming : bool)
    : ApiRequestOptions :=
  mkApiRequestOptions modelId
    (Some (or_default_Z (options task ≫= maxTokens) (getMaxTokensForTask task)))
    (Some (or_default_Q (options task ≫= temperature) (getTemperatureForTask task)))
    (Some streaming).

(** *** Introspection *)

Record AvailableModel := mkAvailableModel {
  config_of : ModelConfig;
  available : bool
}.

(** [getModels]: every configured model with its availability flag, in the
    enumeration order of [config.models]. *)
Definition getModels (config : OrchestratorConfig)
    (providers : gmap string Provider) : list (string * AvailableModel) :=
  map (fun '(name, modelConfig) =>
         (name,
          mkAvailableModel modelConfig
            match providers !! provider modelConfig with
            | Some p => isConfigured p
            | None => false
            end))
      (models config).

Definition getModelsByCapability (config : OrchestratorConfig)
    (providers : gmap string Provider) (capability : string)
    : list AvailableModel :=
  Array_sort
    (fun a b => priority (config_of b) - priority (config_of a))
    (map snd
       (List.filter
          (fun '(_, model) =>
             includes (capabilities (config_of model)) capability && available model)
          (getModels config providers))).


(** *** Dispatch *)

(** The terminal error of [executeTask]. *)
Definition allModelsFailed (task : AITask) : ErrorObj :=
  Error ("All models failed for task: " +:+ type task).


(** The world outside the orchestrator (network, timers, the callback's
    consumer) is a parameter: [settle] is the settled outcome of
    [Promise.race] between the provider call and the timeout timer. *)
Section Dispatch.
Variable World : Type.
Variable settle :
    Provider -> ApiRequestOptions -> AITask -> World -> (ApiResponse + ErrorObj) * World.

Variable config : OrchestratorConfig.
Variable providers : gmap string Provider.

  (** [attempts] is a history variable: every candidate handed to
      [executeWithModel], in order, with the outcome of its call. *)
Record DispatchState := mkDispatchState {
    world : World;
    activeRequests : gmap string Provider;
    attempts : list (string * (ApiResponse + ErrorObj))
  }.

Definition executeWithModel (p : Provider) (modelId : string) (task : AITask)
      (streaming : bool) (w : World) : (ApiResponse + ErrorObj) * World :=
    settle p (requestOptions modelId task streaming) task w.

  (** The [for ... of selector.modelPriority] loop of [executeTask]. *)
Fixpoint tryModels (fb : FallbackBehavior) (taskId : string) (task : AITask)
      (streaming : bool) (candidates : list string) (st : DispatchState)
      : (ApiResponse + ErrorObj) * DispatchState :=
    match candidates with
    | [] => (inr (Error ("All models failed for task: " +:+ type task)), st)
    | modelName :: rest =>
        match models_get (models config) modelName with
        | None => tryModels fb taskId task streaming rest st
        | Some modelConfig =>
            if negb (enabled modelConfig) then tryModels fb taskId task streaming rest st
            else
              match providers !! provider modelConfig with
              | None => tryModels fb taskId task streaming rest st
              | Some p =>
                  if negb (isConfigured p) then tryModels fb taskId task streaming rest st
                  else
                    let '(outcome, w') :=
                      executeWithModel p (modelId modelConfig) task streaming (world st) in
                    let st' :=
                      mkDispatchState w'
                        (delete taskId (<[taskId := p]> (activeRequests st)))
                        (attempts st ++ [(modelName, outcome)]) in
                    match outcome with
                    | inl result => (inl result, st')
                    | inr error =>
                        match fb with
                        | fb_alternative => tryModels fb taskId task streaming rest st'
                        | fb_error => (inr error, st')
                        | fb_retry => tryModels fb taskId task streaming rest st'
                        end
                    end
              end
        end
    end.

  (** [executeTask]; the task id drawn from the clock and [Math.random] is
      passed in. The outer [catch] removes the id again and re-throws. *)
Definition executeTask (taskId : string) (task : AITask) (streaming : bool)
      (modelSelectors : list TaskSelector) (st : DispatchState)
      : (ApiResponse + ErrorObj) * DispatchState :=
    match findSelector task modelSelectors with
    | None =>
        (inr (Error ("No model selector available for task: " +:+ type task)),
         mkDispatchState (world st) (delete taskId (activeRequests st)) (attempts st))
    | Some selector =>
        match tryModels (fallbackBehavior config) taskId task streaming
                (modelPriority selector) st with
        | (inl result, st') => (inl result, st')
        | (inr error, st') =>
            (inr error,
             mkDispatchState (world st') (delete taskId (activeRequests st'))
                             (attempts st'))
        end
    end.
End Dispatch.

(** *** A sample deployment

    Two registered providers, three configured models (the last one
    disabled) and a world that counts the calls made. In [settleSample] the
    OpenAI calls time out and the Anthropic calls answer; in
    [settleAllFail] every call times out. *)
Module Sample.

Definition sampleModels : list (string * ModelConfig) :=
  [ ("code-specialist", mkModelConfig "openai" "gpt-4" true 10 ["chat"; "completion"] 8192);
    ("general-purpose", mkModelConfig "anthropic" "claude-2" true 5 ["chat"] 100000);
    ("fallback", mkModelConfig "openai" "gpt-3.5-turbo" false 1 ["chat"] 4096) ].

Definition sampleConfig (fb : FallbackBehavior) : OrchestratorConfig :=
  mkOrchestratorConfig sampleModels 30000 fb.

Definition sampleProviders : gmap string Provider :=
  <["openai" := mkProvider "openai" (Some "sk-test")]>
    (<["anthropic" := mkProvider "anthropic" (Some "key")]> ∅).

Definition timeoutError : ErrorObj := Error "Model timeout".

Definition sampleResponse (modelId : string) : ApiResponse :=
  mkApiResponse "msg_1" modelId "done" (mkUsage 10 2 12) "stop" 0.

Definition settleSample (p : Provider) (opts : ApiRequestOptions) (task : AITask)
    (calls : nat) : (ApiResponse + ErrorObj) * nat :=
  if String.eqb (providerId p) "openai" then (inr timeoutError, S calls)
  else (inl (sampleResponse (opt_model opts)), S calls).


Definition sampleTask : AITask := mkAITask "generate" "write a parser" None.

Definition idle : DispatchState nat := mkDispatchState nat O ∅ [].

End Sample.

End Orchestrator.

(** ** openai-provider.ts and anthropic-provider.ts: stream decoding *)
Module Streaming.
Import BaseProvider.

(** *** String operations of the decoders *)

Definition newline : string := String "010"%char "".

(** The white space [String.prototype.trim] strips, within ASCII: tab,
    line feed, vertical tab, form feed, carriage return and space. *)
Definition is_whitespace (c : ascii) : bool :=
  let n := nat_of_ascii c in
  ((9 <=? n)%nat && (n <=? 13)%nat) || (n =? 32)%nat.

Fixpoint trim_start (s : string) : string :=
  match s with
  | EmptyString => EmptyString
  | String c s' => if is_whitespace c then trim_start s' else s
  end.

Fixpoint trim_end (s : string) : string :=
  match s with
  | EmptyString => EmptyString
  | String c s' =>
      match trim_end s' with
      | EmptyString => if is_whitespace c then EmptyString else String c EmptyString
      | t => String c t
      end
  end.

Definition trim (s : string) : string := trim_end (trim_start s).

(** [s.split('\n')]: never empty; the last element is the text after the
    last line feed. *)
Fixpoint split_newline (s : string) : list string :=
  match s with
  | EmptyString => [EmptyString]
  | String c s' =>
      if Ascii.eqb c "010" then EmptyString :: split_newline s'
      else match split_newline s' with
           | [] => [String c EmptyString]
           | l :: ls => String c l :: ls
           end
  end.

(** [s.slice(n)]. *)
Fixpoint slice (n : nat) (s : string) : string :=
  match n, s with
  | O, _ => s
  | S n', String _ s' => slice n' s'
  | S _, EmptyString => EmptyString
  end.

(** [s.startsWith(p)]. *)
Definition startsWith (s p : string) : bool := String.prefix p s.

(** [Math.ceil(s.length / 4)]. *)
Definition estimateTokens (s : string) : Z :=
  Math_ceil_div (Z.of_nat (String.length s)) 4.

(** The texts of the data callbacks, put together. *)
Definition joined (texts : list string) : string := foldr String.append "" texts.

(** A stream is what the transport emits: data chunks, then [end] (at
    clock reading [now]) or [error]. *)
Inductive StreamEvent :=
  | Data (chunk : string)
  | End (now : Z)
  | StreamError (msg : string).

(** The error objects the handlers reject with. *)
Definition streamError (msg code : string) : ErrorObj :=
  mkErrorObj msg (Some code) (Some "unknown") None.

(** Message of the [TypeError] raised by reading [.delta] of a missing
    first choice. *)
Definition missingChoiceMessage : string :=
  "Cannot read properties of undefined (reading 'delta')".

Definition doneLine : string := "data: [DONE]".

(** *** OpenAI *)
Module OpenAI.

Record Delta := mkDelta { delta_content : option string }.

Record Choice := mkChoice {
  delta : Delta;
  finish_reason : option string
}.

Record OpenAIStreamChunk := mkChunk {
  chunk_id : string;
  chunk_created : Z;
  chunk_model : string;
  choices : list Choice
}.

(** The variables the handlers close over, the promise ([None] while
    pending, settled once), the provider's rate-limit state, and the
    history of callback invocations. *)
Record StreamState := mkStreamState {
  buffer : string;
  fullContent : string;
  responseId : string;
  responseModel : string;
  responseCreated : Z;
  finishReason : string;
  promise : option (ApiResponse + ErrorObj);
  rateLimitState : RateLimitState;
  calls : list (string * bool)
}.

Definition initial (rl : RateLimitState) : StreamState :=
  mkStreamState "" "" "" "" 0 "" None rl [].

Definition set_buffer (b : string) (s : StreamState) : StreamState :=
  mkStreamState b (fullContent s) (responseId s) (responseModel s)
    (responseCreated s) (finishReason s) (promise s) (rateLimitState s) (calls s).

Definition callback (chunk : string) (done : bool) (s : StreamState) : StreamState :=
  mkStreamState (buffer s) (fullContent s) (responseId s) (responseModel s)
    (responseCreated s) (finishReason s) (promise s) (rateLimitState s)
    (calls s ++ [(chunk, done)]).

(** [resolve] and [reject]: only the first settlement counts. *)
Definition settlePromise (r : ApiResponse + ErrorObj) (s : StreamState) : StreamState :=
  mkStreamState (buffer s) (fullContent s) (responseId s) (responseModel s)
    (responseCreated s) (finishReason s)
    (match promise s with Some r0 => Some r0 | None => Some r end)
    (rateLimitState s) (calls s).

Definition storeMetadata (data : OpenAIStreamChunk) (s : StreamState) : StreamState :=
  if String.eqb (responseId s) "" then
    mkStreamState (buffer s) (fullContent s) (chunk_id data) (chunk_model data)
      (chunk_created data) (finishReason s) (promise s) (rateLimitState s) (calls s)
  else s.

(** Content extraction, finish-reason bookkeeping and the data callback. *)
Definition consumeChoice (c : Choice) (s : StreamState) : StreamState :=
  let content := default "" (delta_content (delta c)) in
  callback content false
    (mkStreamState (buffer s) (fullContent s +:+ content) (responseId s)
       (responseModel s) (responseCreated s)
       (if truthy_string (finish_reason c) then default "" (finish_reason c)
        else finishReason s)
       (promise s) (rateLimitState s) (calls s)).

Section Decoder.
(** [JSON.parse] followed by the cast to [OpenAIStreamChunk]: the parsed
    chunk, or the message of the exception. *)
Variable JSON_parse : string -> string + OpenAIStreamChunk.

(** One iteration of the [for (const line of lines)] loop of the ['data']
    handler; [Some msg] is an exception leaving the loop. *)
Definition processLine (line : string) (s : StreamState)
    : StreamState * option string :=
  if String.eqb (trim line) "" then (s, None)
  else if String.eqb (trim line) doneLine then (callback "" true s, None)
  else if startsWith line "data: " then
    match JSON_parse (slice 6 line) with
    | inl msg => (s, Some msg)
    | inr data =>
        let s1 := storeMetadata data s in
        match choices data with
        | [] => (s1, Some missingChoiceMessage)
        | c :: _ => (consumeChoice c s1, None)
        end
    end
  else (s, None).

Fixpoint processLines (lines : list string) (s : StreamState)
    : StreamState * option string :=
  match lines with
  | [] => (s, None)
  | line :: rest =>
      match processLine line s with
      | (s', None) => processLines rest s'
      | (s', Some msg) => (s', Some msg)
      end
  end.

(** [stream.on('data', ...)]. *)
Definition on_data (chunk : string) (s : StreamState) : StreamState :=
  let lines := split_newline (buffer s +:+ chunk) in
  let s0 := set_buffer (List.last lines "") s in
  match processLines (removelast lines) s0 with
  | (s', None) => s'
  | (s', Some msg) => settlePromise (inr (streamError msg "stream_processing_error")) s'
  end.

(** The remainder handling at the top of [stream.on('end', ...)]; an
    exception in it is logged and swallowed. *)
Definition flushBuffer (s : StreamState) : StreamState :=
  if negb (String.eqb (trim (buffer s)) "") then
    if String.eqb (trim (buffer s)) doneLine then callback "" true s
    else if startsWith (buffer s) "data: " then
      match JSON_parse (slice 6 (buffer s)) with
      | inl _ => s
      | inr data =>
          match choices data with
          | [] => s
          | c :: _ => consumeChoice c s
          end
      end
    else s
  else s.

(** [stream.on('end', ...)]. *)
Definition on_end (estimatedPromptTokens now : Z) (s : StreamState) : StreamState :=
  let s1 := callback "" true (flushBuffer s) in
  let completionTokens := estimateTokens (fullContent s1) in
  let totalTokens := estimatedPromptTokens + completionTokens in
  let s2 :=
    mkStreamState (buffer s1) (fullContent s1) (responseId s1) (responseModel s1)
      (responseCreated s1) (finishReason s1) (promise s1)
      (updateRateLimitCounters now totalTokens (rateLimitState s1)) (calls s1) in
  settlePromise
    (inl (mkApiResponse (responseId s2) (responseModel s2) (fullContent s2)
            (mkUsage estimatedPromptTokens completionTokens totalTokens)
            (finishReason s2) (inject_Z (responseCreated s2))))
    s2.

(** [stream.on('error', ...)]. *)
Definition on_error (msg : string) (s : StreamState) : StreamState :=
  settlePromise (inr (streamError msg "stream_error")) s.

Definition step (estimatedPromptTokens : Z) (e : StreamEvent) (s : StreamState)
    : StreamState :=
  match e with
  | Data chunk => on_data chunk s
  | End now => on_end estimatedPromptTokens now s
  | StreamError msg => on_error msg s
  end.

(** The handlers run once per event, in transport order. *)
Fixpoint run (estimatedPromptTokens : Z) (events : list StreamEvent)
    (s : StreamState) : StreamState :=
  match events with
  | [] => s
  | e :: rest => run estimatedPromptTokens rest (step estimatedPromptTokens e s)
  end.

(** Stream-level vocabulary for the callback contract: the stop sentinel
    occurs neither as a complete line of a chunk (joined to what the buffer
    holds) nor as the remainder left when the stream ends. *)
Definition sentinelFree (chunk : string) (s : StreamState) : Prop :=
  Forall (fun line => trim line <> doneLine)
         (removelast (split_newline (buffer s +:+ chunk))).

Fixpoint sentinelFreeRun (chunks : list string) (s : StreamState) : Prop :=
  match chunks with
  | [] => trim (buffer s) <> doneLine
  | chunk :: rest => sentinelFree chunk s /\ sentinelFreeRun rest (on_data chunk s)
  end.
End Decoder.

(** The response the promise resolved with, if it did. *)
Definition resolved (s : StreamState) : option ApiResponse :=
  match promise s with
  | Some (inl response) => Some response
  | _ => None
  end.

(** From [s] to [s'] the callback received exactly [texts], each as a data
    call, the accumulated content grew by them, and the promise did not
    resolve. *)
Definition emitted (s s' : StreamState) (texts : list string) : Prop :=
  calls s' = calls s ++ map (fun t => (t, false)) texts /\
  fullContent s' = fullContent s +:+ joined texts /\
  (resolved s = None -> resolved s' = None).

End OpenAI.

(** *** Anthropic *)
Module Anthropic.

Record MessageUsage := mkMessageUsage {
  input_tokens : Z;
  output_tokens : Z
}.

Record Message := mkMessage {
  message_id : string;
  message_model : string;
  message_usage : option MessageUsage
}.

(** [stop_reason] is [None] when the key is absent from the delta (a JSON
    [null] value is read as the empty string). *)
Record Delta := mkDelta {
  delta_type : string;
  delta_text : option string;
  stop_reason : option string
}.

Record AnthropicStreamChunk := mkChunk {
  chunk_type : string;
  chunk_message : option Message;
  chunk_delta : option Delta
}.

Record StreamState := mkStreamState {
  buffer : string;
  fullContent : string;
  responseId : string;
  responseModel : string;
  finishReason : string;
  inputTokens : Z;
  outputTokens : Z;
  promise : option (ApiResponse + ErrorObj);
  rateLimitState : RateLimitState;
  calls : list (string * bool)
}.

Definition initial (rl : RateLimitState) : StreamState :=
  mkStreamState "" "" "" "" "" 0 0 None rl [].

Definition set_buffer (b : string) (s : StreamState) : StreamState :=
  mkStreamState b (fullContent s) (responseId s) (responseModel s) (finishReason s)
    (inputTokens s) (outputTokens s) (promise s) (rateLimitState s) (calls s).

Definition callback (chunk : string) (done : bool) (s : StreamState) : StreamState :=
  mkStreamState (buffer s) (fullContent s) (responseId s) (responseModel s)
    (finishReason s) (inputTokens s) (outputTokens s) (promise s)
    (rateLimitState s) (calls s ++ [(chunk, done)]).

Definition settlePromise (r : ApiResponse + ErrorObj) (s : StreamState) : StreamState :=
  mkStreamState (buffer s) (fullContent s) (responseId s) (responseModel s)
    (finishReason s) (inputTokens s) (outputTokens s)
    (match promise s with Some r0 => Some r0 | None => Some r end)
    (rateLimitState s) (calls s).

(** [data.delta && data.delta.type === 'text' && data.delta.text]: the text
    of a text delta, when there is one and it is not empty. *)
Definition textOf (data : AnthropicStreamChunk) : option string :=
  match chunk_delta data with
  | Some d =>
      if String.eqb (delta_type d) "text" && truthy_string (delta_text d)
      then delta_text d else None
  | None => None
  end.

Definition appendText (text : string) (s : StreamState) : StreamState :=
  callback text false
    (mkStreamState (buffer s) (fullContent s +:+ text) (responseId s)
       (responseModel s) (finishReason s) (inputTokens s) (outputTokens s)
       (promise s) (rateLimitState s) (calls s)).

Definition setFinishReason (data : AnthropicStreamChunk) (s : StreamState)
    : option StreamState :=
  match chunk_delta data with
  | Some d =>
      match stop_reason d with
      | Some reason =>
          Some (mkStreamState (buffer s) (fullContent s) (responseId s)
                  (responseModel s) reason (inputTokens s) (outputTokens s)
                  (promise s) (rateLimitState s) (calls s))
      | None => None
      end
  | None => None
  end.

Definition setUsage (data : AnthropicStreamChunk) (s : StreamState)
    : option StreamState :=
  match chunk_message data with
  | Some m =>
      match message_usage m with
      | Some u =>
          Some (mkStreamState (buffer s) (fullContent s) (responseId s)
                  (responseModel s) (finishReason s) (input_tokens u)
                  (output_tokens u) (promise s) (rateLimitState s) (calls s))
      | None => None
      end
  | None => None
  end.

(** The [if / else if] chain on [data.type] of the ['data'] handler. *)
Definition handleEvent (data : AnthropicStreamChunk) (s : StreamState) : StreamState :=
  if String.eqb (chunk_type data) "message_start" then
    match chunk_message data with
    | Some m =>
        mkStreamState (buffer s) (fullContent s) (message_id m) (message_model m)
          (finishReason s) (inputTokens s) (outputTokens s) (promise s)
          (rateLimitState s) (calls s)
    | None => s
    end
  else if String.eqb (chunk_type data) "content_block_start" then s
  else if String.eqb (chunk_type data) "content_block_delta" then
    match textOf data with
    | Some text => appendText text s
    | None => s
    end
  else if String.eqb (chunk_type data) "message_delta" then
    default s (setFinishReason data s)
  else if String.eqb (chunk_type data) "message_stop" then
    default s (setUsage data s)
  else s.

(** The shorter chain of the ['end'] handler: each condition tests the
    event type together with its payload, so a chunk whose payload test
    fails falls through to the next condition. *)
Definition handleLastEvent (data : AnthropicStreamChunk) (s : StreamState)
    : StreamState :=
  match (if String.eqb (chunk_type data) "content_block_delta"
         then textOf data else None) with
  | Some text => appendText text s
  | None =>
      match (if String.eqb (chunk_type data) "message_delta"
             then setFinishReason data s else None) with
      | Some s' => s'
      | None =>
          match (if String.eqb (chunk_type data) "message_stop"
                 then setUsage data s else None) with
          | Some s' => s'
          | None => s
          end
      end
  end.

Section Decoder.
Variable JSON_parse : string -> string + AnthropicStreamChunk.

Definition processLine (line : string) (s : StreamState)
    : StreamState * option string :=
  if String.eqb (trim line) "" || String.eqb (trim line) "data: " then (s, None)
  else if String.eqb (trim line) doneLine then (callback "" true s, None)
  else if startsWith line "data: " then
    match JSON_parse (slice 6 line) with
    | inl msg => (s, Some msg)
    | inr data => (handleEvent data s, None)
    end
  else (s, None).

Fixpoint processLines (lines : list string) (s : StreamState)
    : StreamState * option string :=
  match lines with
  | [] => (s, None)
  | line :: rest =>
      match processLine line s with
      | (s', None) => processLines rest s'
      | (s', Some msg) => (s', Some msg)
      end
  end.

Definition on_data (chunk : string) (s : StreamState) : StreamState :=
  let lines := split_newline (buffer s +:+ chunk) in
  let s0 := set_buffer (List.last lines "") s in
  match processLines (removelast lines) s0 with
  | (s', None) => s'
  | (s', Some msg) => settlePromise (inr (streamError msg "stream_processing_error")) s'
  end.

Definition flushBuffer (s : StreamState) : StreamState :=
  if negb (String.eqb (trim (buffer s)) "")
     && negb (String.eqb (trim (buffer s)) "data: ")
     && negb (String.eqb (trim (buffer s)) doneLine) then
    if startsWith (buffer s) "data: " then
      match JSON_parse (slice 6 (buffer s)) with
      | inl _ => s
      | inr data => handleLastEvent data s
      end
    else s
  else s.

Definition on_end (estimatedPromptTokens now : Z) (s : StreamState) : StreamState :=
  let s1 := callback "" true (flushBuffer s) in
  let inputTokens' :=
    if inputTokens s1 =? 0 then estimatedPromptTokens else inputTokens s1 in
  let outputTokens' :=
    if outputTokens s1 =? 0 then estimateTokens (fullContent s1) else outputTokens s1 in
  let totalTokens := inputTokens' + outputTokens' in
  let s2 :=
    mkStreamState (buffer s1) (fullContent s1) (responseId s1) (responseModel s1)
      (finishReason s1) inputTokens' outputTokens' (promise s1)
      (updateRateLimitCounters now totalTokens (rateLimitState s1)) (calls s1) in
  settlePromise
    (inl (mkApiResponse (responseId s2) (responseModel s2) (fullContent s2)
            (mkUsage inputTokens' outputTokens' totalTokens)
            (finishReason s2) (now # 1000)))
    s2.

Definition on_error (msg : string) (s : StreamState) : StreamState :=
  settlePromise (inr (streamError msg "stream_error")) s.

Definition step (estimatedPromptTokens : Z) (e : StreamEvent) (s : StreamState)
    : StreamState :=
  match e with
  | Data chunk => on_data chunk s
  | End now => on_end estimatedPromptTokens now s
  | StreamError msg => on_error msg s
  end.

Fixpoint run (estimatedPromptTokens : Z) (events : list StreamEvent)
    (s : StreamState) : StreamState :=
  match events with
  | [] => s
  | e :: rest => run estimatedPromptTokens rest (step estimatedPromptTokens e s)
  end.

Definition sentinelFree (chunk : string) (s : StreamState) : Prop :=
  Forall (fun line => trim line <> doneLine)
         (removelast (split_newline (buffer s +:+ chunk))).

Fixpoint sentinelFreeRun (chunks : list string) (s : StreamState) : Prop :=
  match chunks with
  | [] => True
  | chunk :: rest => sentinelFree chunk s /\ sentinelFreeRun rest (on_data chunk s)
  end.
End Decoder.

Definition resolved (s : StreamState) : option ApiResponse :=
  match promise s with
  | Some (inl response) => Some response
  | _ => None
  end.

Definition emitted (s s' : StreamState) (texts : list string) : Prop :=
  calls s' = calls s ++ map (fun t => (t, false)) texts /\
  fullContent s' = fullContent s +:+ joined texts /\
  (resolved s = None -> resolved s' = None).

End Anthropic.

(** *** Sample wire traffic

    The text deltas "He", "llo", "!" as each backend frames them, one
    server-sent event per transport chunk, and parsers that know exactly
    these payloads. *)
Module Wire.

Definition quoted (s : string) : string :=
  String "034"%char s +:+ String "034"%char "".

(** One server-sent event: [data: <payload>] and a blank line. *)
Definition sse (payload : string) : string :=
  "data: " +:+ payload +:+ newline +:+ newline.

Definition openaiFrame (content : string) : string :=
  "{" +:+ quoted "id" +:+ ":" +:+ quoted "chatcmpl-1" +:+ ","
  +:+ quoted "created" +:+ ":1700000000,"
  +:+ quoted "model" +:+ ":" +:+ quoted "gpt-4" +:+ ","
  +:+ quoted "choices" +:+ ":[{" +:+ quoted "delta" +:+ ":{"
  +:+ quoted "content" +:+ ":" +:+ quoted content +:+ "},"
  +:+ quoted "index" +:+ ":0," +:+ quoted "finish_reason" +:+ ":null}]}".

Definition openaiChoice (content : string) : OpenAI.Choice :=
  OpenAI.mkChoice (OpenAI.mkDelta (Some content)) None.

Definition openaiChunk (content : string) : OpenAI.OpenAIStreamChunk :=
  OpenAI.mkChunk "chatcmpl-1" 1700000000 "gpt-4" [openaiChoice content].

Definition openaiParse (payload : string) : string + OpenAI.OpenAIStreamChunk :=
  if String.eqb payload (openaiFrame "He") then inr (openaiChunk "He")
  else if String.eqb payload (openaiFrame "llo") then inr (openaiChunk "llo")
  else if String.eqb payload (openaiFrame "!") then inr (openaiChunk "!")
  else inl "Unexpected token in JSON".

Definition openaiStream (now : Z) : list StreamEvent :=
  [ Data (sse (openaiFrame "He")); Data (sse (openaiFrame "llo"));
    Data (sse (openaiFrame "!")); Data (sse "[DONE]"); End now ].

Definition anthropicFrame (text : string) : string :=
  "{" +:+ quoted "type" +:+ ":" +:+ quoted "content_block_delta" +:+ ","
  +:+ quoted "index" +:+ ":0," +:+ quoted "delta" +:+ ":{"
  +:+ quoted "type" +:+ ":" +:+ quoted "text" +:+ ","
  +:+ quoted "text" +:+ ":" +:+ quoted text +:+ "}}".

Definition anthropicChunk (text : string) : Anthropic.AnthropicStreamChunk :=
  Anthropic.mkChunk "content_block_delta" None
    (Some (Anthropic.mkDelta "text" (Some text) None)).

Definition anthropicStop : string :=
  "{" +:+ quoted "type" +:+ ":" +:+ quoted "message_stop" +:+ "}".

Definition anthropicParse (payload : string)
    : string + Anthropic.AnthropicStreamChunk :=
  if String.eqb payload (anthropicFrame "He") then inr (anthropicChunk "He")
  else if String.eqb payload (anthropicFrame "llo") then inr (anthropicChunk "llo")
  else if String.eqb payload (anthropicFrame "!") then inr (anthropicChunk "!")
  else if String.eqb payload anthropicStop
       then inr (Anthropic.mkChunk "message_stop" None None)
  else inl "Unexpected token in JSON".

Definition anthropicStream (now : Z) : list StreamEvent :=
  [ Data (sse (anthropicFrame "He")); Data (sse (anthropicFrame "llo"));
    Data (sse (anthropicFrame "!")); Data (sse anthropicStop); End now ].

(** The callback contract: data calls, then one completion call. *)
Definition contract (texts : list string) : list (string * bool) :=
  map (fun t => (t, false)) texts ++ [("", true)].

End Wire.

End Streaming.

(** ** Chat messages

    The [messages: any[]] arrays handed to the providers: a role and a
    content that may be absent. *)
Module Chat.

Record ChatMessage := mkChatMessage {
  role : string;
  content : option string
}.

(** [msg.content?.length || 0] (and, for a string or absent content, the
    same value as [typeof msg.content === 'string' ? msg.content.length : 0]). *)
Definition contentLength (msg : ChatMessage) : Z :=
  match content msg with
  | Some c => Z.of_nat (String.length c)
  | None => 0
  end.

(** [Math.ceil(messages.reduce((acc, msg) => acc + length, 0) / 4)]. *)
Definition estimatePromptTokens (messages : list ChatMessage) : Z :=
  Math_ceil_div (foldl (fun acc msg => acc + contentLength msg) 0 messages) 4.

End Chat.

(** ** base-provider.ts: model lookup, and the error handling the provider
    methods share *)
Module Connector.
Import BaseProvider.

(** [ModelConfig] of the provider configuration ([costPer1KTokens] is read
    by [calculateCost] only). *)
Record ModelConfig := mkModelConfig {
  id : string;
  name : string;
  enabled : bool;
  maxTokens : Z;
  contextWindow : Z;
  capabilities : list string
}.

(** The rate limits modelled above together with the model table. *)
Record ProviderConfig := mkProviderConfig {
  limits : ApiProviderConfig;
  models : list ModelConfig
}.

Definition getModels (config : ProviderConfig) : list ModelConfig :=
  List.filter (fun m => enabled m) (models config).

Definition getModel (config : ProviderConfig) (modelId : string)
    : option ModelConfig :=
  List.find (fun m => String.eqb (id m) modelId && enabled m) (models config).

Definition supportsCapability (config : ProviderConfig) (capability : string)
    : bool :=
  existsb (fun m => enabled m && includes (capabilities m) capability)
          (models config).

Definition getModelsByCapability (config : ProviderConfig) (capability : string)
    : list ModelConfig :=
  List.filter (fun m => enabled m && includes (capabilities m) capability)
              (models config).

(** What a [catch (error)] block of a provider method can receive: an axios
    cancellation, an axios error (response status, [data.error.message],
    the [retry-after] header, [error.code], [error.message]), any other
    [Error] object, or a value that is not an [Error] (as [String(error)]
    shows it). *)
Inductive Caught :=
  | CaughtCancel
  | CaughtAxios (status : option Z) (dataMessage : option string)
      (retryAfterHeader : option string) (code : option string) (msg : string)
  | CaughtError (e : ErrorObj)
  | CaughtValue (shown : string).

(** [a || b] on strings. *)
Definition or_default_string (a : option string) (b : string) : string :=
  match a with
  | Some v => if String.eqb v "" then b else v
  | None => b
  end.

Definition unknownError (msg : string) : ErrorObj :=
  mkErrorObj msg (Some "unknown_error") (Some "unknown") None.

Section Normalize.
(** The built-in [parseInt] ([None] is [NaN]) and the provider's wording of
    a 5xx failure ('OpenAI server error', 'Anthropic server error'). *)
Variable parseInt : string -> option Z.
Variable serverErrorMessage : string.

(** The [catch] block of [completion], [chat], [streamingChat] and
    [embeddings], which re-throws the value it builds. *)
Definition normalizeError (error : Caught) : ErrorObj :=
  match error with
  | CaughtCancel =>
      mkErrorObj "Request was cancelled" (Some "request_cancelled") (Some "unknown") None
  | CaughtAxios status dataMessage retryAfterHeader code msg =>
      if bool_decide (status = Some 429) then
        mkErrorObj (or_default_string dataMessage "Rate limit exceeded")
          (Some "rate_limit_exceeded") (Some "rate_limit")
          (parseInt (or_default_string retryAfterHeader "60"))
      else if bool_decide (status = Some 401) then
        mkErrorObj (or_default_string dataMessage "Invalid API key")
          (Some "invalid_api_key") (Some "authentication") None
      else if bool_decide (status = Some 400) then
        mkErrorObj (or_default_string dataMessage "Invalid request")
          (Some "invalid_request") (Some "invalid_request") None
      else if truthy status
              && match status with Some st => 500 <=? st | None => false end then
        mkErrorObj (or_default_string dataMessage serverErrorMessage)
          (Some "server_error") (Some "server_error") None
      else if bool_decide (code = Some "ECONNABORTED") then
        mkErrorObj "Request timed out" (Some "timeout") (Some "timeout") None
      else unknownError msg
  | CaughtError e => unknownError (message e)
  | CaughtValue shown => unknownError shown
  end.
End Normalize.

(** The mutable fields of a provider instance. Cancel-token sources are
    numbered in the order [axios.CancelToken.source()] creates them;
    [cancelled] lists the sources whose [cancel] was called. *)
Record State := mkState {
  rateLimitState : RateLimitState;
  cancelTokenSource : option nat;
  nextSource : nat;
  cancelled : list nat
}.

(** [cancelRequest]. *)
Definition cancelRequest (st : State) : State :=
  match cancelTokenSource st with
  | Some source =>
      mkState (rateLimitState st) None (nextSource st) (cancelled st ++ [source])
  | None => st
  end.

(** The [finally] block: [this.cancelTokenSource = undefined]. *)
Definition clearSource (st : State) : State :=
  mkState (rateLimitState st) None (nextSource st) (cancelled st).

(** [${n}] for a number that may be [undefined]. *)
Definition show_number (n : option Z) : string :=
  match n with
  | Some z => NilZero.string_of_int (Z.to_int z)
  | None => "undefined"
  end.

(** The error thrown when the pre-flight rate check refuses. *)
Definition rateLimitExceeded (retry : option Z) : ErrorObj :=
  mkErrorObj ("Rate limit exceeded. Try again in " +:+ show_number retry +:+ " seconds.")
    (Some "rate_limit_exceeded") (Some "rate_limit") retry.

End Connector.

(** ** openai-provider.ts: [chat] *)
Module OpenAIChat.
Import BaseProvider.

Record ChatChoice := mkChatChoice {
  message_content : string;
  finish_reason : string
}.

Record ChatUsage := mkChatUsage {
  prompt_tokens : Z;
  completion_tokens : Z;
  total_tokens : Z
}.

Record OpenAIChatResponse := mkOpenAIChatResponse {
  resp_id : string;
  resp_created : Z;
  resp_model : string;
  choices : list ChatChoice;
  usage : ChatUsage
}.

(** The request handed to [this.client.post('/chat/completions', ...)],
    with the cancel-token source it was posted under. *)
Record OpenAIChatRequest := mkOpenAIChatRequest {
  req_model : string;
  req_messages : list Chat.ChatMessage;
  req_max_tokens : option Z;
  req_temperature : option Q;
  req_stream : bool;
  req_source : nat
}.

(** Message of the [TypeError] raised by [response.data.choices[0].message]
    on an empty [choices]. *)
Definition missingMessage : string :=
  "Cannot read properties of undefined (reading 'message')".

Section Calls.
Variable parseInt : string -> option Z.
Variable config : Connector.ProviderConfig.

Definition normalize : Connector.Caught -> ErrorObj :=
  Connector.normalizeError parseInt "OpenAI server error".

(** Model validation, token estimate and rate check at the top of [chat]
    and [streamingChat]: the thrown error, or the admitted model. *)
Definition preflight (messages : list Chat.ChatMessage)
    (options : ApiRequestOptions) (now : Z) (rl : RateLimitState)
    : (ErrorObj + Connector.ModelConfig) * RateLimitState :=
  match Connector.getModel config (opt_model options) with
  | None =>
      (inl (Error ("Model " +:+ opt_model options +:+ " not found or not enabled")), rl)
  | Some modelConfig =>
      if negb (includes (Connector.capabilities modelConfig) "chat") then
        (inl (Error ("Model " +:+ opt_model options +:+ " does not support chat")), rl)
      else
        let estimatedPromptTokens := Chat.estimatePromptTokens messages in
        let estimatedMaxTokens :=
          or_default_Z (opt_maxTokens options) (Connector.maxTokens modelConfig) in
        let estimatedTotalTokens := estimatedPromptTokens + estimatedMaxTokens in
        let '(rateLimitCheck, rl') :=
          checkRateLimit (Connector.limits config) now estimatedTotalTokens rl in
        if negb (allowed rateLimitCheck) then
          (inl (Connector.rateLimitExceeded (retryAfter rateLimitCheck)), rl')
        else (inr modelConfig, rl')
  end.

(** [chat] (or, with [streaming], [streamingChat]) up to its [await]: a
    pre-flight error goes through [catch] and [finally]; otherwise a cancel
    source is created and the request is posted. *)
Definition chat_begin (streaming : bool) (messages : list Chat.ChatMessage)
    (options : ApiRequestOptions) (now : Z) (st : Connector.State)
    : (ErrorObj + OpenAIChatRequest) * Connector.State :=
  match preflight messages options now (Connector.rateLimitState st) with
  | (inl thrown, rl') =>
      (inl (normalize (Connector.CaughtError thrown)),
       Connector.mkState rl' None (Connector.nextSource st) (Connector.cancelled st))
  | (inr _, rl') =>
      (inr (mkOpenAIChatRequest (opt_model options) messages (opt_maxTokens options)
              (opt_temperature options) streaming (Connector.nextSource st)),
       Connector.mkState rl' (Some (Connector.nextSource st))
         (S (Connector.nextSource st)) (Connector.cancelled st))
  end.

(** [chat] from the settlement of the [await] on: the counters are updated
    before the response is transformed. *)
Definition chat_finish (outcome : Connector.Caught + OpenAIChatResponse) (now : Z)
    (st : Connector.State) : (ApiResponse + ErrorObj) * Connector.State :=
  match outcome with
  | inl caught => (inr (normalize caught), Connector.clearSource st)
  | inr response =>
      let st' :=
        Connector.mkState
          (updateRateLimitCounters now (total_tokens (usage response))
             (Connector.rateLimitState st))
          None (Connector.nextSource st) (Connector.cancelled st) in
      match choices response with
      | [] => (inr (normalize (Connector.CaughtError (Error missingMessage))), st')
      | choice :: _ =>
          (inl (mkApiResponse (resp_id response) (resp_model response)
                  (message_content choice)
                  (mkUsage (prompt_tokens (usage response))
                     (completion_tokens (usage response))
                     (total_tokens (usage response)))
                  (finish_reason choice) (inject_Z (resp_created response))),
           st')
      end
  end.

(** A whole [chat] call with nothing interleaved: [respond] is what the
    backend and the transport make of the posted request, [later] the clock
    when the response arrives. *)
Definition chat (respond : OpenAIChatRequest -> Connector.Caught + OpenAIChatResponse)
    (messages : list Chat.ChatMessage) (options : ApiRequestOptions)
    (now later : Z) (st : Connector.State)
    : (ApiResponse + ErrorObj) * Connector.State :=
  match chat_begin false messages options now st with
  | (inl error, st') => (inr error, st')
  | (inr request, st') => chat_finish (respond request) later st'
  end.
End Calls.

End OpenAIChat.

(** *** A sample provider

    Two chat models, one of them disabled, an embedding model, and a
    [parseInt] that reads plain decimal strings. *)
Module ChatSample.

Definition sampleProviderConfig : Connector.ProviderConfig :=
  Connector.mkProviderConfig
    (BaseProvider.mkApiProviderConfig (Some 2) (Some 100000))
    [ Connector.mkModelConfig "gpt-4" "GPT-4" true 4096 8192 ["completion"; "chat"];
      Connector.mkModelConfig "gpt-3.5-turbo" "GPT-3.5 Turbo" false 4096 4096 ["chat"];
      Connector.mkModelConfig "text-embedding-ada-002" "Ada" true 8191 8191 ["embedding"] ].

Definition parseDecimal (s : string) : option Z :=
  Z.of_int <$> NilZero.int_of_string s.

Definition sampleMessages : list Chat.ChatMessage :=
  [ Chat.mkChatMessage "system" (Some "You are a helpful assistant.");
    Chat.mkChatMessage "user" (Some "Say hello") ].

Definition sampleOptions : ApiRequestOptions :=
  mkApiRequestOptions "gpt-4" (Some 100) None None.

Definition fresh : Connector.State :=
  Connector.mkState (BaseProvider.mkRateLimitState 0 0 0 1000) None O [].

(** A provider whose window already holds the two requests it allows. *)
Definition saturated : Connector.State :=
  Connector.mkState (BaseProvider.mkRateLimitState 2 300 1500 1000) None 2%nat [].

Definition answer : OpenAIChat.OpenAIChatResponse :=
  OpenAIChat.mkOpenAIChatResponse "chatcmpl-7" 1700000000 "gpt-4"
    [OpenAIChat.mkChatChoice "Hello!" "stop"] (OpenAIChat.mkChatUsage 9 2 11).

Definition respondOk (request : OpenAIChat.OpenAIChatRequest)
    : Connector.Caught + OpenAIChat.OpenAIChatResponse := inr answer.

Definition respondTooMany (request : OpenAIChat.OpenAIChatRequest)
    : Connector.Caught + OpenAIChat.OpenAIChatResponse :=
  inl (Connector.CaughtAxios (Some 429) None (Some "30") None
         "Request failed with status code 429").

End ChatSample.

(** ** anthropic-provider.ts: request and response shaping of [chat] *)
Module AnthropicChat.

(** The loop that extracts the system message: the last one wins. *)
Definition systemMessage (messages : list Chat.ChatMessage) : option string :=
  foldl (fun acc msg => if String.eqb (Chat.role msg) "system" then Chat.content msg
                        else acc)
        None messages.

(** The same loop's [chatMessages]. *)
Definition chatMessages (messages : list Chat.ChatMessage) : list Chat.ChatMessage :=
  List.filter
    (fun msg => negb (String.eqb (Chat.role msg) "system")
                && (String.eqb (Chat.role msg) "user"
                    || String.eqb (Chat.role msg) "assistant"))
    messages.

Record AnthropicMessageContent := mkContent {
  content_type : string;
  content_text : option string
}.

(** The loop over [response.data.content]. *)
Definition textContent (items : list AnthropicMessageContent) : string :=
  foldl (fun acc item =>
           if String.eqb (content_type item) "text"
           then acc +:+ Connector.or_default_string (content_text item) ""
           else acc)
        "" items.

End AnthropicChat.

(** ** The orchestrator: prompts and cancellation *)
Module Requests.
Import Orchestrator.

Record ContextChunk := mkContextChunk {
  filePath : string;
  chunk_content : string
}.

Definition basePrompt : string := "You are Asura AI, an advanced coding assistant. ".

Definition getSystemPromptForTask (task : AITask) : string :=
  basePrompt +:+
  (if String.eqb (type task) "explain" then
     "Provide clear, concise explanations of code. Break down complex concepts into understandable parts. Include examples where helpful."
   else if String.eqb (type task) "generate" then
     "Generate high-quality, well-documented code based on the user's requirements. Follow best practices and include comments."
   else if String.eqb (type task) "refactor" then
     "Improve existing code by refactoring it. Focus on readability, performance, and adherence to best practices. Explain your changes."
   else if String.eqb (type task) "test" then
     "Create comprehensive tests for the given code. Cover edge cases and ensure good test coverage. Follow testing best practices."
   else if String.eqb (type task) "complete" then
     "Complete the code based on the context and user's requirements. Ensure the completed code is consistent with the existing style."
   else
     "Provide helpful assistance with coding tasks. Be clear, concise, and follow best practices.").

Definition contextHeader : string :=
  "Here is some relevant context from the codebase:"
  +:+ Streaming.newline +:+ Streaming.newline.

Definition formatChunk (chunk : ContextChunk) : string :=
  "File: " +:+ filePath chunk +:+ Streaming.newline
  +:+ "```" +:+ Streaming.newline
  +:+ chunk_content chunk
  +:+ Streaming.newline +:+ "```" +:+ Streaming.newline +:+ Streaming.newline.

Definition formatContextMessage (chunks : list ContextChunk) : string :=
  foldl (fun message chunk => message +:+ formatChunk chunk) contextHeader chunks.

(** [formatMessagesForTask]; [chunks] is [task.context.chunks], [None]
    when the task has no context or the context has no chunk list. *)
Definition formatMessagesForTask (task : AITask) (chunks : option (list ContextChunk))
    : list Chat.ChatMessage :=
  [Chat.mkChatMessage "system" (Some (getSystemPromptForTask task))]
  ++ match chunks with
     | Some (c :: cs) =>
         [Chat.mkChatMessage "system" (Some (formatContextMessage (c :: cs)))]
     | _ => []
     end
  ++ [Chat.mkChatMessage "user" (Some (query task))].

(** [cancelRequest(taskId)]: the providers whose [cancelRequest] is called,
    and the in-flight table afterwards. *)
Definition cancelRequest (taskId : string) (activeRequests : gmap string Provider)
    : list Provider * gmap string Provider :=
  match activeRequests !! taskId with
  | Some p => ([p], delete taskId activeRequests)
  | None => ([], activeRequests)
  end.

(** [cancelAllRequests]; the calls are listed in the table's enumeration
    order. *)
Definition cancelAllRequests (activeRequests : gmap string Provider)
    : list Provider * gmap string Provider :=
  ((map_to_list activeRequests).*2, ∅).

End Requests.

(** ** Vocabulary for statements about the decoders *)
Module StreamVocabulary.

(** The decoder state with another promise state. *)
Definition openaiWithPromise (p : option (ApiResponse + ErrorObj))
    (s : Streaming.OpenAI.StreamState) : Streaming.OpenAI.StreamState :=
  Streaming.OpenAI.mkStreamState
    (Streaming.OpenAI.buffer s) (Streaming.OpenAI.fullContent s)
    (Streaming.OpenAI.responseId s) (Streaming.OpenAI.responseModel s)
    (Streaming.OpenAI.responseCreated s) (Streaming.OpenAI.finishReason s)
    p (Streaming.OpenAI.rateLimitState s) (Streaming.OpenAI.calls s).

Definition anthropicWithPromise (p : option (ApiResponse + ErrorObj))
    (s : Streaming.Anthropic.StreamState) : Streaming.Anthropic.StreamState :=
  Streaming.Anthropic.mkStreamState
    (Streaming.Anthropic.buffer s) (Streaming.Anthropic.fullContent s)
    (Streaming.Anthropic.responseId s) (Streaming.Anthropic.responseModel s)
    (Streaming.Anthropic.finishReason s) (Streaming.Anthropic.inputTokens s)
    (Streaming.Anthropic.outputTokens s) p
    (Streaming.Anthropic.rateLimitState s) (Streaming.Anthropic.calls s).

End StreamVocabulary.

(** ** Vocabulary for statements about dispatch *)
Module DispatchVocabulary.
Import Orchestrator.

(** A candidate the loop of [executeTask] does not skip: configured,
    enabled, and owned by a registered provider that has its key. *)
Definition eligible (config : OrchestratorConfig) (providers : gmap string Provider)
    (modelName : string) : Prop :=
  exists modelConfig p,
    models_get (models config) modelName = Some modelConfig /\
    enabled modelConfig = true /\
    providers !! provider modelConfig = Some p /\
    isConfigured p = true.

End DispatchVocabulary.

(** ** extension.ts: the caller's task typing *)
Module Extension.

(** [String.prototype.toLowerCase] on ASCII letters. *)
Definition lower_ascii (c : ascii) : ascii :=
  let n := nat_of_ascii c in
  if (65 <=? n)%nat && (n <=? 90)%nat then ascii_of_nat (n + 32) else c.

Fixpoint toLowerCase (s : string) : string :=
  match s with
  | EmptyString => EmptyString
  | String c s' => String (lower_ascii c) (toLowerCase s')
  end.

(** [s.includes(p)]. *)
Fixpoint string_includes (s p : string) : bool :=
  String.prefix p s
  || match s with
     | EmptyString => false
     | String _ s' => string_includes s' p
     end.

Definition determineTaskType (query : string) : string :=
  let lowerQuery := toLowerCase query in
  if string_includes lowerQuery "explain" || string_includes lowerQuery "what"
     || string_includes lowerQuery "how" then "explain"
  else if string_includes lowerQuery "refactor" || string_includes lowerQuery "improve"
  then "refactor"
  else if string_includes lowerQuery "generate" || string_includes lowerQuery "create"
  then "generate"
  else if string_includes lowerQuery "test" || string_includes lowerQuery "debug"
  then "test"
  else "general".

End Extension.

(** * Properties *)

Lemma Math_ceil_div_1000 (x : Z) :
  1000 * (Math_ceil_div x 1000 - 1) < x <= 1000 * Math_ceil_div x 1000.
Proof.
  unfold Math_ceil_div.
  pose proof (Z.div_mod (- x) 1000 ltac:(lia)) as Hdm.
  pose proof (Z.mod_pos_bound (- x) 1000 ltac:(lia)) as Hb.
  lia.
Qed.

Module BaseProviderFacts.
Import BaseProvider.

Lemma retryAfter_bounds (elapsed : Z) :
  0 <= elapsed < 60000 ->
  0 < Math_ceil_div (60000 - elapsed) 1000 <= 60.
Proof.
  intros He. pose proof (Math_ceil_div_1000 (60000 - elapsed)). lia.
Qed.

Lemma checkRateLimit_rollover config now est st :
  60000 <= now - lastResetTime st ->
  checkRateLimit config now est st =
    (mkRateLimitCheck true None, mkRateLimitState 0 0 now now).
Proof.
  intros H. unfold checkRateLimit.
  destruct (Z.leb_spec 60000 (now - lastResetTime st)); [done | lia].
Qed.

Lemma checkRateLimit_rpm_reject config rpm now est st :
  rateLimitRPM config = Some rpm -> rpm <> 0 ->
  now - lastResetTime st < 60000 ->
  rpm <= requestsThisMinute st ->
  checkRateLimit config now est st =
    (mkRateLimitCheck false
       (Some (Math_ceil_div (60000 - (now - lastResetTime st)) 1000)), st).
Proof.
  intros Hrpm Hnz He Hreq. unfold checkRateLimit. rewrite Hrpm. simpl.
  destruct (Z.leb_spec 60000 (now - lastResetTime st)); [lia |].
  destruct (Z.eqb_spec rpm 0); [done |].
  destruct (Z.leb_spec rpm (requestsThisMinute st)); [done | lia].
Qed.

(** The state threaded out of a check is the incoming state unless the
    window rolled over. *)
Lemma checkRateLimit_same_window config now est st :
  now - lastResetTime st < 60000 ->
  (checkRateLimit config now est st).2 = st.
Proof.
  intros He. unfold checkRateLimit.
  destruct (Z.leb_spec 60000 (now - lastResetTime st)); [lia |].
  repeat case_match; done.
Qed.

Lemma updateRateLimitCounters_same_window now tokens st :
  now - lastResetTime st < 60000 ->
  updateRateLimitCounters now tokens st =
    mkRateLimitState (requestsThisMinute st + 1) (tokensThisMinute st + tokens)
                     now (lastResetTime st).
Proof.
  intros He. unfold updateRateLimitCounters.
  destruct (Z.leb_spec 60000 (now - lastResetTime st)); [lia | done].
Qed.

(** Calls completed inside the window of the starting state each add one
    to the request counter and leave the window start alone. *)
Lemma performCalls_in_window config cs : forall st st',
  Forall (fun c => inWindow st (checkAt c) /\ inWindow st (updateAt c)) cs ->
  performCalls config cs st = Some st' ->
  requestsThisMinute st' = requestsThisMinute st + Z.of_nat (length cs) /\
  lastResetTime st' = lastResetTime st.
Proof.
  induction cs as [| c cs IH]; intros st st' Hwin Hrun; simpl in *.
  - inversion Hrun; subst. lia.
  - inversion Hwin as [| ? ? [Hc Hu] Hrest]; subst.
    unfold performCall in Hrun.
    pose proof (checkRateLimit_same_window config (checkAt c) (estimated c) st
                  ltac:(unfold inWindow in Hc; lia)) as Hsame.
    destruct (checkRateLimit config (checkAt c) (estimated c) st) as [r st1].
    simpl in Hsame. subst st1.
    destruct (allowed r); [| done].
    rewrite updateRateLimitCounters_same_window in Hrun
      by (unfold inWindow in Hu; lia).
    apply IH in Hrun; simpl in *.
    + lia.
    + eapply Forall_impl; [exact Hrest |]. unfold inWindow. simpl. done.
Qed.

End BaseProviderFacts.

Import BaseProvider BaseProviderFacts.

(** C4 (as stated) fails: with [rateLimitRPM = 0] the specification's plain
    comparison [requests >= rpmLimit] holds for a fresh window and asks for a
    rejection, while the code's guard treats the limit as absent and
    allows the request. *)
Lemma rate_limit_plain_threshold_counterexample :
  let config := mkApiProviderConfig (Some 0) (Some 100000) in
  let st := mkRateLimitState 0 0 0 0 in
  ~ check_spec (over_rpm_plain config) (over_tpm_plain config) 1000 1 st
      (checkRateLimit config 1000 1 st).
Proof.
  intros config st (_ & Hrej & _).
  destruct Hrej as [Hall _].
  - subst st; simpl; lia.
  - left. subst config st; unfold over_rpm_plain; simpl; lia.
  - vm_compute in Hall. discriminate.
Qed.

(** C4 (amended): [checkRateLimit] and [updateRateLimitCounters] implement
    the windowed algorithm with each threshold compared only when it is
    configured and non-zero: a check at or past 60000 ms resets the counters
    and allows; inside the window it rejects with
    [retryAfter = ceil((60000 - elapsed)/1000)] exactly when an active
    threshold is exceeded and allows otherwise; an update increments both
    counters inside the window and restarts it with requests 1 and the
    call's tokens after a roll-over. *)
Theorem rate_limit_algorithm config now estimatedTokens actualTokens st :
  check_spec (over_rpm_guarded config) (over_tpm_guarded config)
    now estimatedTokens st (checkRateLimit config now estimatedTokens st) /\
  update_spec now actualTokens st (updateRateLimitCounters now actualTokens st).
Proof.
  split.
  - unfold check_spec, checkRateLimit, over_rpm_guarded, over_tpm_guarded.
    destruct config as [rpm tpm]; simpl.
    destruct (Z.leb_spec 60000 (now - lastResetTime st)) as [Hroll | Hin].
    { simpl. repeat split; intros; lia. }
    assert (Hceil : is_ceil_of_seconds (60000 - (now - lastResetTime st))
                      (Math_ceil_div (60000 - (now - lastResetTime st)) 1000))
      by apply Math_ceil_div_1000.
    split; [intros; lia |].
    destruct rpm as [rpm |], tpm as [tpm |]; simpl;
      repeat match goal with
             | |- context [?a =? ?b] => destruct (Z.eqb_spec a b)
             | |- context [?a <=? ?b] => destruct (Z.leb_spec a b)
             | |- context [?a <? ?b] => destruct (Z.ltb_spec a b)
             end; simpl;
      (split; [intros _ Hover | intros _ Hnot]);
      try (split; [reflexivity | eexists; split; [reflexivity | exact Hceil]]);
      try reflexivity;
      try (exfalso; destruct Hover as [Hover | Hover];
           solve [destruct Hover; lia | lia | done]);
      try (exfalso; apply Hnot; solve [left; split; lia | right; split; lia]).
  - unfold update_spec, updateRateLimitCounters.
    destruct (Z.leb_spec 60000 (now - lastResetTime st)); simpl;
      repeat split; intros; lia.
Qed.

(** C10: a check that rejects leaves the rate-limit state exactly as it
    found it. *)
Theorem checkRateLimit_reject_preserves_state config now est st :
  allowed (checkRateLimit config now est st).1 = false ->
  (checkRateLimit config now est st).2 = st.
Proof.
  unfold checkRateLimit.
  repeat case_match; simpl; intros; done.
Qed.

Lemma checkRateLimit_reject_preserves_state_witness :
  let config := mkApiProviderConfig (Some 2) None in
  let st := mkRateLimitState 2 700 1500 1000 in
  allowed (checkRateLimit config 2000 10 st).1 = false /\
  (checkRateLimit config 2000 10 st).2 = st.
Proof.
  split; [reflexivity |].
  apply (checkRateLimit_reject_preserves_state
           (mkApiProviderConfig (Some 2) None) 2000 10
           (mkRateLimitState 2 700 1500 1000)).
  reflexivity.
Defined.

(** C5 (as stated) fails for [N = 0]: with [rateLimitRPM = 0] the first
    check of a window, preceded by no call at all, is admitted. *)
Lemma rpm_limit_zero_counterexample :
  let config := mkApiProviderConfig (Some 0) None in
  let st0 := mkRateLimitState 0 0 0 0 in
  performCalls config [] st0 = Some st0 /\
  inWindow st0 1000 /\
  allowed (checkRateLimit config 1000 1 st0).1 = true.
Proof.
  split; [reflexivity |]. split; [unfold inWindow; simpl; lia | reflexivity].
Qed.

(** C5 (amended): with [rateLimitRPM = N] and [N >= 1], once [N] calls have
    been admitted and completed inside one 60 s window, every further check
    in that window is rejected, with [0 < retryAfter <= 60], and leaves the
    state alone; a check at or after the roll-over is allowed, and after the
    update of that call the counters are 1 request and that call's tokens. *)
Theorem rpm_limit_window config N st0 cs stN :
  rateLimitRPM config = Some N -> 0 < N ->
  0 <= requestsThisMinute st0 ->
  Z.of_nat (length cs) = N ->
  Forall (fun c => inWindow st0 (checkAt c) /\ inWindow st0 (updateAt c)) cs ->
  performCalls config cs st0 = Some stN ->
  (forall t est, inWindow st0 t ->
     exists r,
       checkRateLimit config t est stN = (mkRateLimitCheck false (Some r), stN) /\
       0 < r <= 60) /\
  (forall t est, lastResetTime st0 + 60000 <= t ->
     allowed (checkRateLimit config t est stN).1 = true /\
     forall t' tokens, t <= t' ->
       let st' := updateRateLimitCounters t' tokens
                    (checkRateLimit config t est stN).2 in
       requestsThisMinute st' = 1 /\ tokensThisMinute st' = tokens).
Proof.
  intros Hrpm HN Hreq0 Hlen Hwin Hrun.
  destruct (performCalls_in_window config cs st0 stN Hwin Hrun) as [Hreq Hreset].
  split.
  - intros t est Ht. unfold inWindow in Ht.
    eexists. split.
    + apply (checkRateLimit_rpm_reject config N); [done | lia | lia | lia].
    + apply retryAfter_bounds. lia.
  - intros t est Ht.
    rewrite checkRateLimit_rollover by lia. simpl.
    split; [reflexivity |].
    intros t' tokens Ht'. unfold updateRateLimitCounters. simpl.
    destruct (Z.leb_spec 60000 (t' - t)); simpl; lia.
Qed.

Lemma rpm_limit_window_witness :
  let config := mkApiProviderConfig (Some 2) (Some 100000) in
  let st0 := mkRateLimitState 0 0 0 5000 in
  let cs := [mkCompletedCall 6000 40 7000 55; mkCompletedCall 9000 10 12000 20] in
  let stN := mkRateLimitState 2 75 12000 5000 in
  (exists r,
     checkRateLimit config 20500 5 stN = (mkRateLimitCheck false (Some r), stN) /\
     0 < r <= 60) /\
  allowed (checkRateLimit config 65000 5 stN).1 = true /\
  requestsThisMinute
    (updateRateLimitCounters 66000 33 (checkRateLimit config 65000 5 stN).2) = 1 /\
  tokensThisMinute
    (updateRateLimitCounters 66000 33 (checkRateLimit config 65000 5 stN).2) = 33.
Proof.
  intros config st0 cs stN.
  assert (Hwin : Forall (fun c => inWindow st0 (checkAt c) /\ inWindow st0 (updateAt c)) cs).
  { subst st0 cs. unfold inWindow.
    repeat first [apply List.Forall_nil | apply List.Forall_cons; [simpl; lia |]]. }
  destruct (rpm_limit_window config 2 st0 cs stN
              eq_refl ltac:(lia) ltac:(simpl; lia) eq_refl Hwin eq_refl)
    as [Hrej Hroll].
  split.
  - apply (Hrej 20500 5). subst st0. unfold inWindow. simpl. lia.
  - destruct (Hroll 65000 5 ltac:(subst st0; simpl; lia)) as [Hall Hupd].
    split; [exact Hall |]. apply (Hupd 66000 33). lia.
Defined.

(** ** Orchestrator: request options *)

Import Orchestrator.

(** C6 (as stated) fails: a [complete] task without overrides is sent with
    1500 max tokens, not 1000. *)
Lemma complete_task_max_tokens_counterexample :
  opt_maxTokens (requestOptions "m" (mkAITask "complete" "q" None) false)
    <> Some 1000.
Proof. vm_compute. discriminate. Qed.

(** C6 (amended): a supplied non-zero [temperature] or [maxTokens] is used
    as it is; when the caller omits the value the task-type default applies:
    temperature 0.7 for generate/complete, 0.3 for explain/document, 0.2 for
    refactor/test and 0.5 otherwise; max tokens 1500 for generate/complete,
    2000 for explain/document and 1000 for refactor/test and anything else.
    (What happens to a supplied zero is left open.) *)
Theorem effective_request_options modelId task streaming :
  let opts := requestOptions modelId task streaming in
  let ty := type task in
  (forall t, options task ≫= temperature = Some t -> ~ (t == 0)%Q ->
     opt_temperature opts = Some t) /\
  (forall n, options task ≫= maxTokens = Some n -> n <> 0 ->
     opt_maxTokens opts = Some n) /\
  (options task ≫= temperature = None ->
     opt_temperature opts =
       Some (if bool_decide (ty = "generate" \/ ty = "complete") then 7 # 10
             else if bool_decide (ty = "explain" \/ ty = "document") then 3 # 10
             else if bool_decide (ty = "refactor" \/ ty = "test") then 2 # 10
             else 5 # 10)) /\
  (options task ≫= maxTokens = None ->
     opt_maxTokens opts =
       Some (if bool_decide (ty = "generate" \/ ty = "complete") then 1500
             else if bool_decide (ty = "explain" \/ ty = "document") then 2000
             else 1000)).
Proof.
  intros opts ty. subst opts. unfold requestOptions. simpl.
  repeat split.
  - intros t -> Hnz. simpl. f_equal.
    destruct (Qeq_bool t 0) eqn:E; [| done].
    apply Qeq_bool_iff in E. contradiction.
  - intros n -> Hnz. simpl. f_equal.
    destruct (Z.eqb_spec n 0); [contradiction | done].
  - intros ->. simpl. f_equal. unfold getTemperatureForTask. subst ty.
    repeat case_bool_decide;
      repeat match goal with
             | |- context [String.eqb ?a ?b] => destruct (String.eqb_spec a b)
             end; simpl; try reflexivity; exfalso; intuition congruence.
  - intros ->. simpl. f_equal. unfold getMaxTokensForTask. subst ty.
    repeat case_bool_decide;
      repeat match goal with
             | |- context [String.eqb ?a ?b] => destruct (String.eqb_spec a b)
             end; simpl; try reflexivity; exfalso; intuition congruence.
Qed.

Lemma effective_request_options_witness :
  let task := mkAITask "explain" "what does this do?"
                (Some (mkTaskOptions (Some (9 # 10)) None None)) in
  opt_temperature (requestOptions "gpt-4" task true) = Some (9 # 10) /\
  opt_maxTokens (requestOptions "gpt-4" task true) = Some 2000.
Proof.
  intros task.
  destruct (effective_request_options "gpt-4" task true) as (Ht & _ & _ & Hm).
  split.
  - apply (Ht (9 # 10)); [reflexivity | discriminate].
  - apply Hm. reflexivity.
Defined.

(** ** Orchestrator: selectors *)

Lemma findSelector_app_defaults task early :
  exists selector, findSelector task (registerDefaultSelectors early) = Some selector /\
    (selector ∈ early \/ modelPriority selector <> []).
Proof.
  unfold findSelector, registerDefaultSelectors.
  induction early as [| s early IH]; simpl.
  - repeat match goal with
           | |- context [if ?b then _ else _] => destruct b
           end; eexists; (split; [reflexivity | right; discriminate]).
  - destruct (predicate s task).
    + exists s. split; [done | left; left].
    + destruct IH as (sel & Hsel & Hin). exists sel. split; [done |].
      destruct Hin; [left; by right | by right].
Qed.

Lemma registered_last customs modelSelectors :
  registered customs modelSelectors -> last modelSelectors = Some defaultSelector.
Proof.
  induction 1 as [early | s customs l Hreg IH].
  - unfold registerDefaultSelectors, builtinSelectors.
    rewrite last_app. reflexivity.
  - unfold addTaskSelector. destruct l; [discriminate | exact IH].
Qed.

Lemma registered_find task customs modelSelectors :
  registered customs modelSelectors ->
  exists selector, findSelector task modelSelectors = Some selector /\
    (selector ∈ customs \/ modelPriority selector <> []).
Proof.
  induction 1 as [early | s customs l Hreg IH].
  - apply findSelector_app_defaults.
  - unfold findSelector, addTaskSelector. simpl.
    destruct (predicate s task).
    + exists s. split; [done | left; left].
    + destruct IH as (sel & Hsel & Hin). exists sel. split; [done |].
      destruct Hin; [left; by right | by right].
Qed.

(** C7 (as stated) fails: a custom selector that matches the task and has
    an empty [modelPriority] is found first, so the selected candidate list
    is empty although the default selector is still registered last. *)
Lemma empty_custom_selector_counterexample :
  let custom := mkTaskSelector "custom" (fun _ => true) [] in
  let modelSelectors := addTaskSelector custom (registerDefaultSelectors []) in
  registered [custom] modelSelectors /\
  modelPriority <$> findSelector (mkAITask "generate" "q" None) modelSelectors
    = Some [].
Proof.
  split; [| reflexivity].
  apply registered_add. apply registered_defaults.
Qed.

(** C7 (amended): once the built-in selectors are registered, for every
    task the selector lookup finds a selector; the selector list ends in
    the default catch-all, whose predicate accepts every task and whose
    candidate list is non-empty, and [addTaskSelector] keeps it there by
    prepending; the selected candidate list is non-empty whenever every
    custom selector has a non-empty candidate list. *)
Theorem selector_lookup_total customs modelSelectors task :
  registered customs modelSelectors ->
  (exists selector,
     findSelector task modelSelectors = Some selector /\
     (Forall (fun s => modelPriority s <> []) customs ->
      modelPriority selector <> [])) /\
  last modelSelectors = Some defaultSelector /\
  (forall t, predicate defaultSelector t = true) /\
  modelPriority defaultSelector <> [] /\
  (forall s, registered (s :: customs) (addTaskSelector s modelSelectors) /\
             addTaskSelector s modelSelectors = s :: modelSelectors).
Proof.
  intros Hreg. repeat split.
  - destruct (registered_find task _ _ Hreg) as (sel & Hsel & Hin).
    exists sel. split; [done |]. intros Hall.
    destruct Hin as [Hin | Hne]; [| done].
    rewrite Forall_forall in Hall. by apply Hall.
  - by eapply registered_last.
  - discriminate.
  - by apply registered_add.
Qed.

Lemma selector_lookup_total_witness :
  let custom := mkTaskSelector "docs" (fun task => String.eqb (type task) "document")
                  ["explanation-specialist"] in
  let modelSelectors := addTaskSelector custom (registerDefaultSelectors []) in
  (exists selector,
     findSelector (mkAITask "review" "q" None) modelSelectors = Some selector /\
     modelPriority selector <> []) /\
  last modelSelectors = Some defaultSelector.
Proof.
  intros custom modelSelectors.
  destruct (selector_lookup_total [custom] modelSelectors (mkAITask "review" "q" None)
              (registered_add custom [] _ (registered_defaults [])))
    as ((sel & Hsel & Hne) & Hlast & _).
  split; [| exact Hlast].
  exists sel. split; [exact Hsel |].
  apply Hne. apply List.Forall_cons; [discriminate | apply List.Forall_nil].
Defined.

(** ** Orchestrator: introspection *)

Section ArraySortFacts.
Context {A : Type}.
Variable compare : A -> A -> Z.
Variable R : A -> A -> Prop.
Hypothesis R_trans : forall a b c, R a b -> R b c -> R a c.
Hypothesis compare_le : forall a b, compare a b <= 0 -> R a b.
Hypothesis compare_gt : forall a b, 0 < compare a b -> R b a.




End ArraySortFacts.





(** ** Orchestrator: dispatch and fallback *)

Section DispatchFacts.
Variable World : Type.
Variable settle :
  Provider -> ApiRequestOptions -> AITask -> World -> (ApiResponse + ErrorObj) * World.
Variable config : OrchestratorConfig.
Variable providers : gmap string Provider.

Local Abbreviation tryModels := (tryModels World settle config providers).
Local Abbreviation State := (DispatchState World).

(** Under the "error" policy the loop makes at most one call, and when it
    makes one the loop's result is that call's outcome. *)
Lemma tryModels_error taskId task streaming candidates : forall (st st' : State) r,
  tryModels fb_error taskId task streaming candidates st = (r, st') ->
  (attempts _ st' = attempts _ st /\ r = inr (allModelsFailed task)) \/
  exists modelName, attempts _ st' = attempts _ st ++ [(modelName, r)].
Proof.
  induction candidates as [| m rest IH]; intros st st' r Hrun; simpl in Hrun.
  - inversion Hrun; subst. by left.
  - repeat case_match; simplify_eq; simpl; eauto.
Qed.

(** Under the other two policies the loop stops at the first success; every
    call before it failed, and if no call succeeds the loop ends in
    [allModelsFailed]. *)
Lemma tryModels_fallthrough fb taskId task streaming candidates :
  fb <> fb_error ->
  forall (st st' : State) r,
  tryModels fb taskId task streaming candidates st = (r, st') ->
  exists tr, attempts _ st' = attempts _ st ++ tr /\
    ((exists failed modelName result,
        tr = failed ++ [(modelName, inl result)] /\ r = inl result /\
        Forall (fun a => exists e, a.2 = inr e) failed) \/
     (r = inr (allModelsFailed task) /\
      Forall (fun a => exists e, a.2 = inr e) tr)).
Proof.
  intros Hfb.
  induction candidates as [| m rest IH]; intros st st' r Hrun; simpl in Hrun.
  - inversion Hrun; subst. exists []. rewrite app_nil_r. split; [done |].
    right. split; [done | constructor].
  - repeat case_match; simplify_eq; eauto;
      try match goal with
          | H : tryModels _ _ _ _ _ _ = _ |- _ =>
              apply IH in H; simpl in H;
              destruct H as (tr & Hatt & [(failed & mn & res & -> & -> & Hall)
                                         | [-> Hall]]);
              rewrite <- app_assoc in Hatt; eexists; (split; [exact Hatt |]);
              [ left; eexists (_ :: failed), mn, res;
                split; [reflexivity |]; split; [done |];
                constructor; [simpl; eauto | done]
              | right; split; [done |]; constructor; [simpl; eauto | done] ]
          end.
    simpl. eexists [_]. split; [reflexivity |].
    left. eexists [], _, _. split; [reflexivity |]. split; [done | constructor].
Qed.

Lemma tryModels_retry_alternative taskId task streaming candidates :
  forall st : State,
  tryModels fb_retry taskId task streaming candidates st =
  tryModels fb_alternative taskId task streaming candidates st.
Proof.
  induction candidates as [| m rest IH]; intros st; simpl; [done |].
  repeat case_match; simplify_eq; auto.
Qed.

Lemma executeTask_attempts taskId task streaming modelSelectors selector
    (st st' : State) r :
  findSelector task modelSelectors = Some selector ->
  executeTask World settle config providers taskId task streaming modelSelectors st
    = (r, st') ->
  exists st1,
    tryModels (fallbackBehavior config) taskId task streaming
      (modelPriority selector) st = (r, st1) /\
    attempts _ st' = attempts _ st1 /\ world _ st' = world _ st1.
Proof.
  intros Hsel Hrun. unfold executeTask in Hrun. rewrite Hsel in Hrun.
  destruct (tryModels _ _ _ _ _ _) as [[result | error] st1];
    simplify_eq; eauto.
Qed.

(** C2: under [fallbackBehavior = "error"], a failed candidate call is the
    only call [executeTask] makes: it is the first attempt, nothing is
    attempted after it, and its error is the error [executeTask] throws. *)
Theorem error_policy_propagates_first_failure taskId task streaming modelSelectors
    (st st' : State) r before modelName error after :
  fallbackBehavior config = fb_error ->
  executeTask World settle config providers taskId task streaming modelSelectors st
    = (r, st') ->
  attempts _ st' = attempts _ st ++ before ++ (modelName, inr error) :: after ->
  before = [] /\ after = [] /\ r = inr error.
Proof.
  intros Hfb Hrun Hatt.
  destruct (findSelector task modelSelectors) as [selector |] eqn:Hsel.
  - destruct (executeTask_attempts _ _ _ _ _ _ _ _ Hsel Hrun)
      as (st1 & Htry & Hatt1 & _).
    rewrite Hfb in Htry. rewrite Hatt1 in Hatt.
    apply tryModels_error in Htry as [[Hsame _] | (m & Hone)].
    + rewrite Hsame in Hatt.
      rewrite <- (app_nil_r (attempts _ st)) in Hatt at 1.
      apply app_inv_head in Hatt. by destruct before.
    + rewrite Hone in Hatt. apply app_inv_head in Hatt.
      destruct before as [| b before]; simpl in Hatt.
      * by simplify_eq.
      * injection Hatt as _ Hrest. by destruct before.
  - unfold executeTask in Hrun. rewrite Hsel in Hrun. simplify_eq. simpl in Hatt.
    rewrite <- (app_nil_r (attempts _ st)) in Hatt at 1.
    apply app_inv_head in Hatt. by destruct before.
Qed.


End DispatchFacts.

(** C3: [executeTask] configured with "retry" and configured with
    "alternative" return the same result and leave the same state behind
    (the same world, the same in-flight table, the same sequence of
    attempted candidates with the same outcomes). *)
Theorem retry_equals_alternative World settle config providers taskId task
    streaming modelSelectors (st : DispatchState World) :
  executeTask World settle (setFallback fb_retry config) providers
    taskId task streaming modelSelectors st =
  executeTask World settle (setFallback fb_alternative config) providers
    taskId task streaming modelSelectors st.
Proof.
  unfold executeTask. simpl.
  destruct (findSelector task modelSelectors) as [selector |]; [| done].
  assert (Hloop : forall candidates s,
    tryModels World settle (setFallback fb_retry config) providers fb_retry
      taskId task streaming candidates s =
    tryModels World settle (setFallback fb_alternative config) providers
      fb_alternative taskId task streaming candidates s).
  { induction candidates as [| m rest IH]; intros s; simpl; [done |].
    repeat case_match; simplify_eq; auto. }
  by rewrite Hloop.
Qed.

Import Sample.

Example fallback_to_second_model :
  (executeTask nat settleSample (sampleConfig fb_alternative) sampleProviders
     "task_1" sampleTask false (registerDefaultSelectors []) idle).1
  = inl (sampleResponse "claude-2").
Proof. vm_compute. reflexivity. Qed.

Lemma error_policy_propagates_first_failure_witness :
  (executeTask nat settleSample (sampleConfig fb_error) sampleProviders
     "task_1" sampleTask false (registerDefaultSelectors []) idle).1
  = inr timeoutError.
Proof.
  pose (run := executeTask nat settleSample (sampleConfig fb_error) sampleProviders
                 "task_1" sampleTask false (registerDefaultSelectors []) idle).
  destruct (error_policy_propagates_first_failure nat settleSample
              (sampleConfig fb_error) sampleProviders
              "task_1" sampleTask false (registerDefaultSelectors []) idle
              run.2 run.1 [] "code-specialist" timeoutError [])
    as (_ & _ & Hr).
  - reflexivity.
  - apply surjective_pairing.
  - vm_compute. reflexivity.
  - exact Hr.
Defined.


(** ** Stream decoding *)

Import Streaming Streaming.Wire.

Example anthropic_stream_meets_contract :
  let s := Anthropic.run anthropicParse 12 (anthropicStream 1700000000000)
             (Anthropic.initial (mkRateLimitState 0 0 0 0)) in
  Anthropic.calls s = contract ["He"; "llo"; "!"] /\
  exists response,
    Anthropic.promise s = Some (inl response) /\ content response = "Hello!".
Proof. vm_compute. split; [reflexivity | eexists; split; reflexivity]. Qed.

Section OpenAIDecoderFacts.
Variable JSON_parse : string -> string + OpenAI.OpenAIStreamChunk.

(** A transport chunk holding one well-formed event, arriving on an empty
    buffer, stores the metadata and consumes the first choice: one data
    callback. *)
Lemma openai_on_data_event payload data c cs (s : OpenAI.StreamState) :
  OpenAI.buffer s = "" ->
  split_newline (sse payload) = ["data: " +:+ payload; ""; ""] ->
  String.eqb (trim ("data: " +:+ payload)) doneLine = false ->
  JSON_parse payload = inr data ->
  OpenAI.choices data = c :: cs ->
  OpenAI.on_data JSON_parse (sse payload) s
    = OpenAI.consumeChoice c (OpenAI.storeMetadata data s).
Proof.
  intros Hbuf Hsplit Hdone Hparse Hchoices.
  unfold OpenAI.on_data. rewrite Hbuf. change ("" +:+ sse payload) with (sse payload).
  rewrite Hsplit. cbn [List.last removelast OpenAI.processLines].
  unfold OpenAI.processLine at 1. rewrite Hdone.
  change (trim ("data: " +:+ payload))
    with (trim_end (String "d" ("ata: " +:+ payload))).
  assert (Hne : String.eqb (trim_end (String "d" ("ata: " +:+ payload))) "" = false).
  { simpl. destruct (trim_end _); reflexivity. }
  rewrite Hne.
  change (startsWith ("data: " +:+ payload) "data: ") with (String.prefix "" payload).
  change (slice 6 ("data: " +:+ payload)) with payload.
  replace (String.prefix "" payload) with true by (by destruct payload).
  rewrite Hparse, Hchoices.
  destruct s; simpl in Hbuf; subst. reflexivity.
Qed.

(** However the stream went before, a [data: [DONE]] line followed by the
    end of the stream invokes the completion callback twice. *)
Lemma openai_done_then_end est now (s : OpenAI.StreamState) :
  OpenAI.buffer s = "" ->
  OpenAI.calls
    (OpenAI.on_end JSON_parse est now (OpenAI.on_data JSON_parse (sse "[DONE]") s))
  = OpenAI.calls s ++ [("", true); ("", true)].
Proof.
  intros Hbuf. destruct s; simpl in Hbuf; subst.
  unfold OpenAI.on_end, OpenAI.on_data. simpl. by rewrite <- app_assoc.
Qed.

End OpenAIDecoderFacts.

(** C1 at the OpenAI decoder: on the frames "He", "llo", "!" closed by the
    stop sentinel [data: [DONE]], the call resolves with content "Hello!",
    but the callback sees the completion call twice, so the sequence is not
    the contracted one. *)
Theorem openai_stop_sentinel_completes_twice JSON_parse est now rl :
  JSON_parse (openaiFrame "He") = inr (openaiChunk "He") ->
  JSON_parse (openaiFrame "llo") = inr (openaiChunk "llo") ->
  JSON_parse (openaiFrame "!") = inr (openaiChunk "!") ->
  let s := OpenAI.run JSON_parse est (openaiStream now) (OpenAI.initial rl) in
  OpenAI.calls s
    = [("He", false); ("llo", false); ("!", false); ("", true); ("", true)] /\
  OpenAI.calls s <> contract ["He"; "llo"; "!"] /\
  exists response,
    OpenAI.promise s = Some (inl response) /\ content response = "Hello!".
Proof.
  intros H1 H2 H3 s.
  assert (Hcalls : OpenAI.calls s
    = [("He", false); ("llo", false); ("!", false); ("", true); ("", true)] /\
    exists response,
      OpenAI.promise s = Some (inl response) /\ content response = "Hello!").
  { subst s. unfold openaiStream. cbn [OpenAI.run OpenAI.step].
    rewrite (openai_on_data_event JSON_parse (openaiFrame "He")
               (openaiChunk "He") (openaiChoice "He") [])
      by (assumption || (vm_compute; reflexivity)).
    rewrite (openai_on_data_event JSON_parse (openaiFrame "llo")
               (openaiChunk "llo") (openaiChoice "llo") [])
      by (assumption || (vm_compute; reflexivity)).
    rewrite (openai_on_data_event JSON_parse (openaiFrame "!")
               (openaiChunk "!") (openaiChoice "!") [])
      by (assumption || (vm_compute; reflexivity)).
    vm_compute. split; [reflexivity |]. eexists. split; reflexivity. }
  destruct Hcalls as [Hcalls Hresp].
  split; [exact Hcalls |]. split; [| exact Hresp].
  rewrite Hcalls. discriminate.
Qed.

Lemma openai_stop_sentinel_completes_twice_witness :
  OpenAI.calls
    (OpenAI.run openaiParse 12 (openaiStream 1700000000000)
       (OpenAI.initial (mkRateLimitState 0 0 0 0)))
  = [("He", false); ("llo", false); ("!", false); ("", true); ("", true)].
Proof.
  apply (openai_stop_sentinel_completes_twice openaiParse 12 1700000000000
           (mkRateLimitState 0 0 0 0)); vm_compute; reflexivity.
Defined.

(** The sibling decoders differ on a sentinel left in the buffer when the
    stream ends: the OpenAI handler reports completion for the sentinel and
    again for the end of the stream, the Anthropic handler skips the
    sentinel and reports completion once. *)
Lemma openai_trailing_sentinel_completes_twice JSON_parse est now
    (s : OpenAI.StreamState) :
  OpenAI.buffer s = doneLine ->
  OpenAI.calls (OpenAI.on_end JSON_parse est now s)
    = OpenAI.calls s ++ [("", true); ("", true)].
Proof.
  intros Hbuf. destruct s; simpl in Hbuf; subst.
  unfold OpenAI.on_end. simpl. by rewrite <- app_assoc.
Qed.

Lemma anthropic_trailing_sentinel_completes_once JSON_parse est now
    (s : Anthropic.StreamState) :
  Anthropic.buffer s = doneLine ->
  Anthropic.calls (Anthropic.on_end JSON_parse est now s)
    = Anthropic.calls s ++ [("", true)].
Proof.
  intros Hbuf. destruct s; simpl in Hbuf; subst.
  unfold Anthropic.on_end. reflexivity.
Qed.

(** A supplied temperature of zero does not survive [||]. *)
Example zero_temperature_is_replaced :
  opt_temperature
    (requestOptions "gpt-4"
       (mkAITask "refactor" "q" (Some (mkTaskOptions (Some 0%Q) None None))) false)
  = Some (2 # 10).
Proof. reflexivity. Qed.

Lemma rate_limit_algorithm_witness :
  let config := mkApiProviderConfig (Some 2) (Some 1000) in
  let st := mkRateLimitState 2 10 1500 1000 in
  check_spec (over_rpm_guarded config) (over_tpm_guarded config) 2000 10 st
    (checkRateLimit config 2000 10 st).
Proof.
  exact (proj1 (rate_limit_algorithm (mkApiProviderConfig (Some 2) (Some 1000))
                  2000 10 25 (mkRateLimitState 2 10 1500 1000))).
Defined.


Example sample_models_by_capability :
  map (fun m => modelId (config_of m))
    (getModelsByCapability (sampleConfig fb_alternative) sampleProviders "chat")
  = ["gpt-4"; "claude-2"; "gpt-3.5-turbo"].
Proof. vm_compute. reflexivity. Qed.

(** ** The callback contract in general *)

Lemma string_app_nil_r (s : string) : s +:+ "" = s.
Proof.
  induction s as [| c s IH]; [done |].
  change (String c (s +:+ "") = String c s). by f_equal.
Qed.

Lemma string_app_assoc (a b c : string) : (a +:+ b) +:+ c = a +:+ (b +:+ c).
Proof.
  induction a as [| x a IH]; [done |].
  change (String x ((a +:+ b) +:+ c) = String x (a +:+ (b +:+ c))). by f_equal.
Qed.


Module AnthropicContract.
Import Anthropic.













Section Decoder.
Variable JSON_parse : string -> string + AnthropicStreamChunk.









End Decoder.
End AnthropicContract.

Module OpenAIContract.
Import OpenAI.







Section Decoder.
Variable JSON_parse : string -> string + OpenAIStreamChunk.






Lemma openai_run_app est ev1 : forall ev2 s,
  run JSON_parse est (ev1 ++ ev2) s
    = run JSON_parse est ev2 (run JSON_parse est ev1 s).
Proof. induction ev1 as [| e ev1 IH]; intros; simpl; [done | apply IH]. Qed.



End Decoder.
End OpenAIContract.

(** * Further properties of the modelled code *)

(** ** Rate limiter *)



(** X2: when the clock is not behind the window start, every rejection
    carries a [retryAfter] between 1 and 60 seconds. *)
Theorem rejection_retryAfter_range config now est st :
  lastResetTime st <= now ->
  allowed (checkRateLimit config now est st).1 = false ->
  exists r, retryAfter (checkRateLimit config now est st).1 = Some r /\ 1 <= r <= 60.
Proof.
  intros Hclock. unfold checkRateLimit.
  destruct (Z.leb_spec 60000 (now - lastResetTime st)) as [Hroll | Hin];
    [simpl; discriminate |].
  pose proof (retryAfter_bounds (now - lastResetTime st) ltac:(lia)) as Hb.
  repeat case_match; simpl; intros Hrej; try discriminate;
    (eexists; split; [reflexivity | lia]).
Qed.

Lemma rejection_retryAfter_range_witness :
  exists r,
    retryAfter (checkRateLimit (mkApiProviderConfig None (Some 1000)) 31500 400
                  (mkRateLimitState 3 700 1500 1000)).1 = Some r /\ 1 <= r <= 60.
Proof.
  apply (rejection_retryAfter_range (mkApiProviderConfig None (Some 1000)) 31500 400
           (mkRateLimitState 3 700 1500 1000)); [simpl; lia | reflexivity].
Defined.

(** X3: a request whose estimate alone exceeds a configured tokens-per-minute
    limit is refused throughout a live window, and admitted exactly when
    the check falls on a rolled-over window, where the thresholds are not
    consulted. *)
Theorem oversized_request_passes_only_at_rollover config tpm now est st :
  rateLimitTPM config = Some tpm -> 0 < tpm ->
  0 <= tokensThisMinute st -> tpm < est ->
  (allowed (checkRateLimit config now est st).1 = true
   <-> 60000 <= now - lastResetTime st).
Proof.
  intros Htpm Hpos Htok Hbig. unfold checkRateLimit. rewrite Htpm. simpl.
  destruct (Z.leb_spec 60000 (now - lastResetTime st)) as [Hroll | Hin].
  - simpl. split; [intros _; assumption | reflexivity].
  - destruct (Z.eqb_spec tpm 0); [lia |].
    destruct (Z.ltb_spec tpm (tokensThisMinute st + est)); [| lia].
    simpl. destruct (truthy (rateLimitRPM config) && _); simpl;
      (split; [discriminate | lia]).
Qed.

Lemma oversized_request_passes_only_at_rollover_witness :
  allowed (checkRateLimit (mkApiProviderConfig None (Some 1000)) 70000 5000
             (mkRateLimitState 0 0 0 1000)).1 = true
  <-> 60000 <= 70000 - lastResetTime (mkRateLimitState 0 0 0 1000).
Proof.
  apply (oversized_request_passes_only_at_rollover
           (mkApiProviderConfig None (Some 1000)) 1000 70000 5000
           (mkRateLimitState 0 0 0 1000)); simpl; (reflexivity || lia).
Defined.



(** X5: with a requests-per-minute limit of at least 1, calls that are
    admitted and completed one after the other, at whatever times, never
    drive the request counter of the current window above the limit. *)
Theorem sequential_calls_respect_rpm config rpm cs : forall st st',
  rateLimitRPM config = Some rpm -> 1 <= rpm ->
  0 <= requestsThisMinute st <= rpm ->
  performCalls config cs st = Some st' ->
  0 <= requestsThisMinute st' <= rpm.
Proof.
  induction cs as [| c cs IH]; intros st st' Hrpm Hpos Hinv Hrun; simpl in Hrun.
  - by simplify_eq.
  - destruct (performCall config c st) as [st1 |] eqn:Hcall; [| done].
    apply (IH st1 st' Hrpm Hpos); [| exact Hrun].
    unfold performCall, checkRateLimit, updateRateLimitCounters in Hcall.
    rewrite Hrpm in Hcall. simpl in Hcall.
    repeat match type of Hcall with
           | context [?a <=? ?b] => destruct (Z.leb_spec a b)
           | context [?a =? ?b] => destruct (Z.eqb_spec a b)
           | context [if ?b then _ else _] => destruct b eqn:?
           end; simpl in Hcall; simplify_eq; simpl; lia.
Qed.

Lemma sequential_calls_respect_rpm_witness :
  0 <= requestsThisMinute (mkRateLimitState 2 75 12000 5000) <= 2.
Proof.
  apply (sequential_calls_respect_rpm (mkApiProviderConfig (Some 2) (Some 100000)) 2
           [mkCompletedCall 6000 40 7000 55; mkCompletedCall 9000 10 12000 20]
           (mkRateLimitState 0 0 0 5000) (mkRateLimitState 2 75 12000 5000));
    simpl; (reflexivity || lia).
Defined.

(** ** Provider model lookup *)
Module ConnectorFacts.
Import Connector.

(** X6: [getModel] answers with an enabled model of that id, the first in
    configuration order, and answers nothing exactly when no enabled model
    has the id (a disabled model is as good as absent). *)
Theorem getModel_characterised config modelId :
  (forall m, getModel config modelId = Some m ->
     In m (getModels config) /\ id m = modelId /\
     exists before after,
       models config = before ++ m :: after /\
       Forall (fun m' => ~ (id m' = modelId /\ enabled m' = true)) before) /\
  (getModel config modelId = None <->
     forall m, In m (getModels config) -> id m <> modelId).
Proof.
  unfold getModel, getModels. split.
  - induction (models config) as [| m0 ms IH]; simpl; [done |].
    intros m Hfind.
    destruct (String.eqb_spec (id m0) modelId) as [Hid | Hid]; simpl in Hfind.
    + destruct (enabled m0) eqn:Hen; simpl in *.
      * simplify_eq. split; [by left |]. split; [done |].
        exists [], ms. split; [done | constructor].
      * destruct (IH m Hfind) as (Hin & Hm & before & after & -> & Hall).
        split; [done |]. split; [done |].
        exists (m0 :: before), after. split; [done |].
        constructor; [| done]. intros [_ ?]. congruence.
    + destruct (IH m Hfind) as (Hin & Hm & before & after & -> & Hall).
      split; [destruct (enabled m0); simpl; auto |]. split; [done |].
      exists (m0 :: before), after. split; [done |].
      constructor; [| done]. intros [? _]. congruence.
  - split.
    + intros Hnone m Hin Hid. apply filter_In in Hin as [Hin Hen].
      eapply find_none in Hnone; [| exact Hin]. simpl in Hnone.
      rewrite Hen, andb_true_r in Hnone. apply String.eqb_neq in Hnone. done.
    + intros Hall. destruct (List.find _ _) as [m |] eqn:Hfind; [| done].
      apply find_some in Hfind as [Hin Hm].
      apply andb_true_iff in Hm as [Hid Hen]. apply String.eqb_eq in Hid.
      exfalso. apply (Hall m); [| done]. apply filter_In. done.
Qed.

(** X7: [supportsCapability] is true exactly when [getModelsByCapability]
    has something to return, and what that returns are the models of
    [getModels] that list the capability, in configuration order. *)
Theorem supportsCapability_iff_models config capability :
  (supportsCapability config capability = true
   <-> getModelsByCapability config capability <> []) /\
  getModelsByCapability config capability
    = List.filter (fun m => includes (capabilities m) capability) (getModels config).
Proof.
  unfold supportsCapability, getModelsByCapability, getModels. split.
  - induction (models config) as [| m ms IH]; simpl; [done |].
    destruct (enabled m && includes (capabilities m) capability); simpl; [done |].
    exact IH.
  - induction (models config) as [| m ms IH]; simpl; [done |].
    destruct (enabled m); simpl; [| exact IH].
    destruct (includes (capabilities m) capability); simpl; by rewrite IH.
Qed.

End ConnectorFacts.

(** ** OpenAI [chat] *)
Module OpenAIChatFacts.
Import Connector OpenAIChat.

(** The six values of [ApiError.type]. *)
Lemma normalizeError_type parseInt serverErrorMessage caught :
  In (err_type (normalizeError parseInt serverErrorMessage caught))
     [Some "rate_limit"; Some "invalid_request"; Some "authentication";
      Some "server_error"; Some "timeout"; Some "unknown"] /\
  err_code (normalizeError parseInt serverErrorMessage caught) <> None.
Proof.
  destruct caught; simpl; repeat case_match; simpl; split; auto 10; discriminate.
Qed.

Section Calls.
Variable parseInt : string -> option Z.
Variable config : ProviderConfig.

Lemma preflight_error_state messages options now rl thrown rl' :
  preflight config messages options now rl = (inl thrown, rl') -> rl' = rl.
Proof.
  unfold preflight. intros H.
  destruct (getModel config (opt_model options)) as [mc |]; [| by simplify_eq].
  destruct (negb (includes (capabilities mc) "chat")); [by simplify_eq |].
  destruct (BaseProvider.checkRateLimit _ _ _ _) as [check rl1] eqn:Hcheck.
  destruct (negb (BaseProvider.allowed check)) eqn:Hall; simplify_eq.
  pose proof (BaseProviderFacts.checkRateLimit_same_window (limits config) now
                (Chat.estimatePromptTokens messages
                 + or_default_Z (opt_maxTokens options) (maxTokens mc)) rl) as Hsame.
  unfold BaseProvider.checkRateLimit in Hcheck, Hsame.
  destruct (60000 <=? now - BaseProvider.lastResetTime rl) eqn:Hroll.
  - by simplify_eq.
  - rewrite <- Hsame; [| by apply Z.leb_gt].
    by rewrite Hcheck.
Qed.

(** X8: whatever goes wrong, the error [chat] throws is normalized: it has a
    [code], and its [type] is one of the six of [ApiError]. *)
Theorem chat_errors_are_normalized respond messages options now later st e st' :
  chat parseInt config respond messages options now later st = (inr e, st') ->
  In (err_type e)
     [Some "rate_limit"; Some "invalid_request"; Some "authentication";
      Some "server_error"; Some "timeout"; Some "unknown"] /\
  err_code e <> None.
Proof.
  unfold chat, chat_begin, chat_finish, normalize. intros H.
  repeat case_match; simplify_eq; apply normalizeError_type.
Qed.

(** X9: a call refused before the request is sent (unknown or disabled
    model, model without the chat capability, rate limit) is reported as
    [unknown_error] of type [unknown] with no [retryAfter], whatever the
    error thrown inside said; nothing is posted, the rate-limit state is as
    before and the provider holds no cancel source afterwards. *)
Theorem preflight_failure_is_unknown streaming messages options now st e st' :
  chat_begin parseInt config streaming messages options now st = (inl e, st') ->
  err_code e = Some "unknown_error" /\ err_type e = Some "unknown" /\
  err_retryAfter e = None /\
  st' = clearSource st.
Proof.
  unfold chat_begin. intros H.
  destruct (preflight config messages options now (rateLimitState st))
    as [[thrown | mc] rl'] eqn:Hpre; simplify_eq.
  apply preflight_error_state in Hpre. subst rl'. done.
Qed.

(** X10: when the pre-flight rate check refuses, the seconds to wait reach
    the caller only inside the message text. *)
Theorem rate_limited_chat_reports_delay_in_message respond messages options
    now later st modelConfig r :
  getModel config (opt_model options) = Some modelConfig ->
  includes (capabilities modelConfig) "chat" = true ->
  BaseProvider.checkRateLimit (limits config) now
    (Chat.estimatePromptTokens messages
     + or_default_Z (opt_maxTokens options) (maxTokens modelConfig))
    (rateLimitState st)
    = (BaseProvider.mkRateLimitCheck false (Some r), rateLimitState st) ->
  (chat parseInt config respond messages options now later st).1
    = inr (unknownError
             ("Rate limit exceeded. Try again in "
              +:+ NilZero.string_of_int (Z.to_int r) +:+ " seconds.")).
Proof.
  intros Hmodel Hcap Hcheck.
  unfold chat, chat_begin, preflight. rewrite Hmodel, Hcap. simpl.
  rewrite Hcheck. reflexivity.
Qed.


(** X12: [cancelRequest] reaches a request only between its posting and the
    next completion of any call on the same provider: right after a request
    is posted it cancels that request's source, but once a later call on
    the provider has run to its end, in success or in failure, it cancels
    nothing, although the first request may still be awaiting its answer. *)
Theorem cancel_source_is_lost_to_a_later_call streaming messages options now st
    request st1 :
  chat_begin parseInt config streaming messages options now st = (inr request, st1) ->
  cancelled (cancelRequest st1) = cancelled st ++ [req_source request] /\
  forall respond messages' options' now' later result st2,
    chat parseInt config respond messages' options' now' later st1 = (result, st2) ->
    cancelRequest st2 = st2 /\ cancelled st2 = cancelled st.
Proof.
  unfold chat_begin. intros Hbegin.
  destruct (preflight config messages options now (rateLimitState st))
    as [[thrown | mc] rl'] eqn:Hpre; simplify_eq.
  split; [reflexivity |].
  intros respond messages' options' now' later result st2 Hchat.
  unfold chat, chat_begin, chat_finish in Hchat. simpl in Hchat.
  repeat case_match; simplify_eq; done.
Qed.

End Calls.
End OpenAIChatFacts.

Lemma chat_errors_are_normalized_witness :
  In (Some "rate_limit")
     [Some "rate_limit"; Some "invalid_request"; Some "authentication";
      Some "server_error"; Some "timeout"; Some "unknown"] /\
  Some "rate_limit_exceeded" <> @None string.
Proof.
  exact (OpenAIChatFacts.chat_errors_are_normalized ChatSample.parseDecimal
           ChatSample.sampleProviderConfig ChatSample.respondTooMany
           ChatSample.sampleMessages ChatSample.sampleOptions 2000 2500
           ChatSample.fresh
           (mkErrorObj "Rate limit exceeded" (Some "rate_limit_exceeded")
              (Some "rate_limit") (Some 30))
           (Connector.mkState (BaseProvider.mkRateLimitState 0 0 0 1000) None 1%nat [])
           eq_refl).
Defined.

Lemma preflight_failure_is_unknown_witness :
  exists e st',
    OpenAIChat.chat_begin ChatSample.parseDecimal ChatSample.sampleProviderConfig
      false ChatSample.sampleMessages ChatSample.sampleOptions 2000
      ChatSample.saturated = (inl e, st') /\
    err_type e = Some "unknown" /\ err_retryAfter e = None.
Proof.
  eexists _, _. split; [reflexivity |].
  destruct (OpenAIChatFacts.preflight_failure_is_unknown ChatSample.parseDecimal
              ChatSample.sampleProviderConfig false ChatSample.sampleMessages
              ChatSample.sampleOptions 2000 ChatSample.saturated _ _ eq_refl)
    as (_ & Htype & Hretry & _).
  split; [exact Htype | exact Hretry].
Defined.

Lemma rate_limited_chat_reports_delay_in_message_witness :
  (OpenAIChat.chat ChatSample.parseDecimal ChatSample.sampleProviderConfig
     ChatSample.respondOk ChatSample.sampleMessages ChatSample.sampleOptions
     2000 2500 ChatSample.saturated).1
  = inr (Connector.unknownError "Rate limit exceeded. Try again in 59 seconds.").
Proof.
  exact (OpenAIChatFacts.rate_limited_chat_reports_delay_in_message
           ChatSample.parseDecimal ChatSample.sampleProviderConfig
           ChatSample.respondOk ChatSample.sampleMessages ChatSample.sampleOptions
           2000 2500 ChatSample.saturated
           (Connector.mkModelConfig "gpt-4" "GPT-4" true 4096 8192 ["completion"; "chat"])
           59 eq_refl eq_refl eq_refl).
Defined.


Lemma cancel_source_is_lost_to_a_later_call_witness :
  exists request st1,
    OpenAIChat.chat_begin ChatSample.parseDecimal ChatSample.sampleProviderConfig
      true ChatSample.sampleMessages ChatSample.sampleOptions 2000 ChatSample.fresh
      = (inr request, st1) /\
    Connector.cancelled (Connector.cancelRequest st1) = [O] /\
    Connector.cancelled
      (Connector.cancelRequest
         (OpenAIChat.chat ChatSample.parseDecimal ChatSample.sampleProviderConfig
            ChatSample.respondTooMany ChatSample.sampleMessages
            ChatSample.sampleOptions 2100 2600 st1).2) = [].
Proof.
  eexists _, _. split; [reflexivity |].
  destruct (OpenAIChatFacts.cancel_source_is_lost_to_a_later_call
              ChatSample.parseDecimal ChatSample.sampleProviderConfig true
              ChatSample.sampleMessages ChatSample.sampleOptions 2000
              ChatSample.fresh _ _ eq_refl) as [Hnow Hlater].
  split; [exact Hnow |].
  destruct (Hlater ChatSample.respondTooMany ChatSample.sampleMessages
              ChatSample.sampleOptions 2100 2600 _ _ (surjective_pairing _))
    as [Hnoop Hsame].
  rewrite Hnoop. exact Hsame.
Defined.

(** ** Anthropic request shaping and the orchestrator's prompts *)
Module ShapingFacts.
Import AnthropicChat Requests.




(** X14: for a task that comes with context chunks, the request the
    Anthropic provider builds from the orchestrator's messages carries the
    context text as its system prompt and drops the task instructions;
    without context the instructions are the system prompt. Either way the
    only chat message is the user's query. *)
Theorem anthropic_request_for_task task chunks :
  systemMessage (formatMessagesForTask task chunks)
    = Some match chunks with
           | Some (c :: cs) => formatContextMessage (c :: cs)
           | _ => getSystemPromptForTask task
           end /\
  chatMessages (formatMessagesForTask task chunks)
    = [Chat.mkChatMessage "user" (Some (Orchestrator.query task))].
Proof.
  unfold formatMessagesForTask. destruct chunks as [[| c cs] |]; split; reflexivity.
Qed.

Lemma textContent_from acc items :
  foldl (fun acc item =>
           if String.eqb (content_type item) "text"
           then acc +:+ Connector.or_default_string (content_text item) ""
           else acc) acc items
  = acc +:+ textContent items.
Proof.
  unfold textContent. revert acc.
  induction items as [| item rest IH] using rev_ind; intros acc.
  - simpl. by rewrite string_app_nil_r.
  - rewrite !foldl_app. simpl. rewrite (IH acc).
    destruct (String.eqb (content_type item) "text"); [| done].
    by rewrite string_app_assoc.
Qed.

(** X15: the text of an Anthropic response is the concatenation, in order,
    of the texts of its text items: splitting the item list anywhere splits
    the text, and items of another type or without text add nothing. *)
Theorem anthropic_text_content_concatenates :
  (forall items items', textContent (items ++ items')
                        = textContent items +:+ textContent items') /\
  (forall item, content_type item <> "text" -> textContent [item] = "") /\
  (forall ty, textContent [mkContent ty None] = "") /\
  (forall text, textContent [mkContent "text" (Some text)] = text).
Proof.
  repeat split.
  - intros items items'. unfold textContent at 1. rewrite foldl_app.
    apply textContent_from.
  - intros item Hty. unfold textContent. simpl.
    apply String.eqb_neq in Hty. by rewrite Hty.
  - intros ty. unfold textContent. simpl. by destruct (String.eqb ty "text").
  - intros text. unfold textContent. simpl. by destruct text.
Qed.

End ShapingFacts.


(** ** The caller's task typing and the built-in routing *)
Module ExtensionFacts.
Import Extension.

Lemma string_includes_app pre w post :
  string_includes (pre +:+ w +:+ post) w = true.
Proof.
  induction pre as [| c pre IH].
  - change ("" +:+ w +:+ post) with (w +:+ post).
    assert (Hprefix : String.prefix w (w +:+ post) = true).
    { clear. induction w as [| c w IH]; [by destruct post |].
      change (String c w +:+ post) with (String c (w +:+ post)).
      simpl. destruct (ascii_dec c c); [exact IH | done]. }
    destruct (w +:+ post); simpl; simpl in Hprefix; by rewrite Hprefix.
  - change (String c pre +:+ w +:+ post) with (String c (pre +:+ w +:+ post)).
    simpl. rewrite IH. apply orb_true_r.
Qed.

Lemma toLowerCase_app a b : toLowerCase (a +:+ b) = toLowerCase a +:+ toLowerCase b.
Proof.
  induction a as [| c a IH]; [done |].
  change (String c a +:+ b) with (String c (a +:+ b)).
  simpl. rewrite IH. reflexivity.
Qed.

(** X16: the task type is decided by substring search on the lower-cased
    query with the explanation keywords first: a query that contains
    "explain", "what" or "how" anywhere, inside a longer word and next to
    any other keyword included, is an "explain" task. *)
Theorem explain_keywords_take_precedence pre w post :
  In w ["explain"; "what"; "how"] ->
  determineTaskType (pre +:+ w +:+ post) = "explain".
Proof.
  intros Hw. unfold determineTaskType.
  rewrite !toLowerCase_app.
  assert (Hlow : toLowerCase w = w).
  { simpl in Hw. destruct Hw as [<- | [<- | [<- | []]]]; reflexivity. }
  rewrite Hlow.
  pose proof (string_includes_app (toLowerCase pre) w (toLowerCase post)) as Hinc.
  simpl in Hw. destruct Hw as [<- | [<- | [<- | []]]]; rewrite Hinc;
    by rewrite ?orb_true_r.
Qed.

(** X17: the command never produces a "complete" or "document" task: the
    type is one of explain, refactor, generate, test and general, and the
    built-in selectors route it to the explanation specialist for explain,
    straight to the general-purpose model for general, and to the code
    specialist otherwise, always with general-purpose and fallback behind. *)
Theorem command_task_routing query :
  let task := Orchestrator.mkAITask (determineTaskType query) query None in
  In (Orchestrator.type task) ["explain"; "refactor"; "generate"; "test"; "general"] /\
  Orchestrator.modelPriority
    <$> Orchestrator.findSelector task (Orchestrator.registerDefaultSelectors [])
  = Some (if String.eqb (Orchestrator.type task) "explain"
          then ["explanation-specialist"; "general-purpose"; "fallback"]
          else if String.eqb (Orchestrator.type task) "general"
          then ["general-purpose"; "fallback"]
          else ["code-specialist"; "general-purpose"; "fallback"]).
Proof.
  unfold determineTaskType. simpl.
  repeat match goal with
         | |- context [if ?b then _ else _] =>
             lazymatch b with
             | context [string_includes] => destruct b
             end
         end; simpl; split; auto 10.
Qed.

End ExtensionFacts.

Lemma explain_keywords_take_precedence_witness :
  Extension.determineTaskType ("S" +:+ "how" +:+ " me a refactoring of the tests")
  = "explain".
Proof.
  apply (ExtensionFacts.explain_keywords_take_precedence
           "S" "how" " me a refactoring of the tests").
  simpl. auto.
Defined.

(** ** The orchestrator's in-flight table *)
Module RequestsFacts.
Import Orchestrator Requests.

(** X18: [cancelRequest] on an id that is not in flight calls no provider
    and changes nothing; on an id in flight it calls that request's
    provider once, removes the entry and leaves every other entry alone,
    and a second call for the same id is again a no-op. *)
Theorem cancelRequest_only_its_entry taskId (activeRequests : gmap string Provider) :
  (activeRequests !! taskId = None ->
     cancelRequest taskId activeRequests = ([], activeRequests)) /\
  (forall p, activeRequests !! taskId = Some p ->
     (cancelRequest taskId activeRequests).1 = [p]) /\
  (cancelRequest taskId activeRequests).2 !! taskId = None /\
  (forall other, other <> taskId ->
     (cancelRequest taskId activeRequests).2 !! other = activeRequests !! other) /\
  cancelRequest taskId (cancelRequest taskId activeRequests).2
    = ([], (cancelRequest taskId activeRequests).2).
Proof.
  unfold cancelRequest.
  destruct (activeRequests !! taskId) as [p |] eqn:Hlook; simpl.
  - repeat split; try done.
    + intros p0 Hp0. by simplify_eq.
    + by rewrite lookup_delete_eq.
    + intros other Hne. by rewrite lookup_delete_ne.
    + by rewrite lookup_delete_eq.
  - repeat split; try done. by rewrite Hlook.
Qed.

(** X19: [cancelAllRequests] calls [cancelRequest] on the provider of every
    in-flight entry, once per entry, and empties the table, so that no
    later [cancelRequest] finds anything. *)
Theorem cancelAllRequests_cancels_every_entry (activeRequests : gmap string Provider) :
  (forall p, p ∈ (cancelAllRequests activeRequests).1
             <-> exists taskId, activeRequests !! taskId = Some p) /\
  length (cancelAllRequests activeRequests).1 = size activeRequests /\
  forall taskId,
    cancelRequest taskId (cancelAllRequests activeRequests).2 = ([], ∅).
Proof.
  unfold cancelAllRequests. simpl. repeat split.
  - intros Hin. apply list_elem_of_fmap in Hin as ([k v] & -> & Hkv).
    exists k. by apply elem_of_map_to_list.
  - intros (k & Hk). apply list_elem_of_fmap. exists (k, p).
    split; [done | by apply elem_of_map_to_list].
  - by rewrite length_fmap, length_map_to_list.
Qed.

End RequestsFacts.

(** ** More on dispatch *)
Module DispatchMore.
Import Orchestrator.

Section Dispatch.
Variable World : Type.
Variable settle :
  Provider -> ApiRequestOptions -> AITask -> World -> (ApiResponse + ErrorObj) * World.
Variable config : OrchestratorConfig.
Variable providers : gmap string Provider.

Local Abbreviation loop := (tryModels World settle config providers).
Local Abbreviation run := (executeTask World settle config providers).

Local Abbreviation eligible := (DispatchVocabulary.eligible config providers).

Lemma tryModels_activeRequests fb taskId task streaming candidates :
  forall (st st' : DispatchState World) r,
  loop fb taskId task streaming candidates st = (r, st') ->
  delete taskId (activeRequests _ st') = delete taskId (activeRequests _ st) /\
  (forall result, r = inl result ->
     activeRequests _ st' = delete taskId (activeRequests _ st)).
Proof.
  induction candidates as [| m rest IH]; intros st st' r Hrun; simpl in Hrun.
  - by simplify_eq.
  - repeat case_match; simplify_eq; eauto;
      try (apply IH in Hrun; simpl in Hrun;
           rewrite delete_delete_eq, delete_insert_eq in Hrun; exact Hrun);
      simpl; rewrite ?delete_delete_eq, ?delete_insert_eq; split; try done;
      intros; by rewrite ?delete_insert_eq.
Qed.

(** X20: when [executeTask] returns or throws, its task id is not in the
    in-flight table and every other entry of the table is as it was. *)
Theorem executeTask_deregisters taskId task streaming modelSelectors
    (st st' : DispatchState World) r :
  run taskId task streaming modelSelectors st = (r, st') ->
  activeRequests _ st' = delete taskId (activeRequests _ st) /\
  activeRequests _ st' !! taskId = None /\
  forall other, other <> taskId ->
    activeRequests _ st' !! other = activeRequests _ st !! other.
Proof.
  intros Hrun.
  assert (Heq : activeRequests _ st' = delete taskId (activeRequests _ st)).
  { unfold executeTask in Hrun.
    destruct (findSelector task modelSelectors) as [selector |]; [| by simplify_eq].
    destruct (loop _ _ _ _ _ _) as [[result | error] st1] eqn:Hloop; simplify_eq.
    - by eapply tryModels_activeRequests.
    - simpl. by eapply tryModels_activeRequests. }
  rewrite Heq. split; [done |]. split.
  - by rewrite lookup_delete_eq.
  - intros other Hne. by rewrite lookup_delete_ne.
Qed.

Lemma tryModels_eligible_in_order fb taskId task streaming candidates :
  forall (st st' : DispatchState World) r,
  loop fb taskId task streaming candidates st = (r, st') ->
  exists tr,
    attempts _ st' = attempts _ st ++ tr /\
    tr.*1 `sublist_of` candidates /\
    Forall eligible tr.*1.
Proof.
  induction candidates as [| m rest IH]; intros st st' r Hrun; simpl in Hrun.
  - simplify_eq. exists []. rewrite app_nil_r. repeat split; constructor.
  - destruct (models_get (models config) m) as [mc |] eqn:Hmc.
    2: { destruct (IH _ _ _ Hrun) as (tr & Hatt & Hsub & Hel).
         exists tr. repeat split; [done | by apply sublist_cons | done]. }
    destruct (enabled mc) eqn:Hen; simpl in Hrun.
    2: { destruct (IH _ _ _ Hrun) as (tr & Hatt & Hsub & Hel).
         exists tr. repeat split; [done | by apply sublist_cons | done]. }
    destruct (providers !! provider mc) as [p |] eqn:Hp.
    2: { destruct (IH _ _ _ Hrun) as (tr & Hatt & Hsub & Hel).
         exists tr. repeat split; [done | by apply sublist_cons | done]. }
    destruct (isConfigured p) eqn:Hconf; simpl in Hrun.
    2: { destruct (IH _ _ _ Hrun) as (tr & Hatt & Hsub & Hel).
         exists tr. repeat split; [done | by apply sublist_cons | done]. }
    assert (Hm : eligible m) by (by exists mc, p).
    destruct (executeWithModel _ _ _ _ _ _ _) as [out w'] eqn:Hexec.
    assert (Hlast : forall s : DispatchState World,
              attempts _ s = attempts _ st ++ [(m, out)] ->
              exists tr, attempts _ s = attempts _ st ++ tr /\
                tr.*1 `sublist_of` m :: rest /\ Forall eligible tr.*1).
    { intros s Hs. exists [(m, out)]. split; [done |]. split.
      - apply sublist_skip, sublist_nil_l.
      - by constructor. }
    assert (Hmore : forall s : DispatchState World,
              attempts _ s = attempts _ st ++ [(m, out)] ->
              loop fb taskId task streaming rest s = (r, st') ->
              exists tr, attempts _ st' = attempts _ st ++ tr /\
                tr.*1 `sublist_of` m :: rest /\ Forall eligible tr.*1).
    { intros s Hs Hloop. destruct (IH _ _ _ Hloop) as (tail & Htail & Hsub & Hel).
      exists ((m, out) :: tail). rewrite Htail, Hs, <- app_assoc.
      split; [done |]. split; [by apply sublist_skip | by constructor]. }
    destruct out as [result | error].
    + simplify_eq. apply Hlast. reflexivity.
    + destruct fb.
      * simplify_eq. apply Hlast. reflexivity.
      * eapply Hmore; [| exact Hrun]. reflexivity.
      * eapply Hmore; [| exact Hrun]. reflexivity.
Qed.

(** X21: [executeTask] calls only candidates that are configured, enabled
    and owned by a registered provider with a key, and it calls them in
    the order of the selected candidate list, each list position at most
    once: a model that failed is not called again for the task. *)
Theorem executeTask_calls_eligible_in_order taskId task streaming modelSelectors
    selector (st st' : DispatchState World) r :
  findSelector task modelSelectors = Some selector ->
  run taskId task streaming modelSelectors st = (r, st') ->
  exists tr,
    attempts _ st' = attempts _ st ++ tr /\
    tr.*1 `sublist_of` modelPriority selector /\
    Forall eligible tr.*1.
Proof.
  intros Hsel Hrun. unfold executeTask in Hrun. rewrite Hsel in Hrun.
  destruct (loop _ _ _ _ _ _) as [[result | error] st1] eqn:Hloop; simplify_eq;
    apply tryModels_eligible_in_order in Hloop; exact Hloop.
Qed.

(** X22: a result of [executeTask] is the outcome of the last call it made:
    every call before it failed and no call follows it; under the "error"
    policy there is no call before it. *)
Theorem executeTask_success_is_last_attempt taskId task streaming modelSelectors
    (st st' : DispatchState World) result :
  run taskId task streaming modelSelectors st = (inl result, st') ->
  exists failed modelName,
    attempts _ st' = attempts _ st ++ failed ++ [(modelName, inl result)] /\
    Forall (fun a => exists e, a.2 = inr e) failed /\
    (fallbackBehavior config = fb_error -> failed = []).
Proof.
  intros Hrun. unfold executeTask in Hrun.
  destruct (findSelector task modelSelectors) as [selector |]; [| by simplify_eq].
  destruct (loop _ _ _ _ _ _) as [[res | error] st1] eqn:Hloop; simplify_eq.
  destruct (fallbackBehavior config) eqn:Hfb.
  - apply tryModels_error in Hloop as [[_ ?] | (m & Hone)]; [done |].
    exists [], m. split; [exact Hone |]. split; [constructor | done].
  - apply tryModels_fallthrough in Hloop; [| done].
    destruct Hloop as (tr & Hatt & [(failed & m & res & -> & Hres & Hall) | [? _]]);
      [| done].
    simplify_eq. exists failed, m. repeat split; [done | done | done].
  - apply tryModels_fallthrough in Hloop; [| done].
    destruct Hloop as (tr & Hatt & [(failed & m & res & -> & Hres & Hall) | [? _]]);
      [| done].
    simplify_eq. exists failed, m. repeat split; [done | done | done].
Qed.

End Dispatch.
End DispatchMore.

Lemma executeTask_deregisters_witness :
  activeRequests nat
    (executeTask nat settleSample (sampleConfig fb_alternative) sampleProviders
       "task_1" sampleTask false (registerDefaultSelectors [])
       (mkDispatchState nat O (<["task_0" := mkProvider "openai" (Some "sk-test")]> ∅) [])).2
  !! "task_1" = None.
Proof.
  eapply (DispatchMore.executeTask_deregisters nat settleSample
            (sampleConfig fb_alternative) sampleProviders "task_1" sampleTask false
            (registerDefaultSelectors []) _ _ _ (surjective_pairing _)).
Defined.

Lemma executeTask_calls_eligible_in_order_witness :
  let run := executeTask nat settleSample (sampleConfig fb_alternative) sampleProviders
               "task_1" sampleTask false (registerDefaultSelectors []) idle in
  exists tr,
    attempts nat run.2 = attempts nat idle ++ tr /\
    tr.*1 `sublist_of` ["code-specialist"; "general-purpose"; "fallback"] /\
    Forall (DispatchVocabulary.eligible (sampleConfig fb_alternative) sampleProviders)
           tr.*1.
Proof.
  intros run.
  exact (DispatchMore.executeTask_calls_eligible_in_order nat settleSample
           (sampleConfig fb_alternative) sampleProviders "task_1" sampleTask false
           (registerDefaultSelectors [])
           (mkTaskSelector "code-generation"
              (fun task => String.eqb (type task) "generate"
                           || String.eqb (type task) "complete")
              ["code-specialist"; "general-purpose"; "fallback"])
           idle run.2 run.1 eq_refl (surjective_pairing run)).
Defined.

Lemma executeTask_success_is_last_attempt_witness :
  let run := executeTask nat settleSample (sampleConfig fb_alternative) sampleProviders
               "task_1" sampleTask false (registerDefaultSelectors []) idle in
  exists failed modelName,
    attempts nat run.2
      = attempts nat idle ++ failed ++ [(modelName, inl (sampleResponse "claude-2"))] /\
    Forall (fun a => exists e, a.2 = inr e) failed /\
    (fallbackBehavior (sampleConfig fb_alternative) = fb_error -> failed = []).
Proof.
  intros run.
  assert (Hrun : run = (inl (sampleResponse "claude-2"), run.2))
    by (vm_compute; reflexivity).
  exact (DispatchMore.executeTask_success_is_last_attempt nat settleSample
           (sampleConfig fb_alternative) sampleProviders "task_1" sampleTask false
           (registerDefaultSelectors []) idle run.2 (sampleResponse "claude-2") Hrun).
Defined.

(** ** More on the stream decoders *)
Module OpenAIStreamFacts.
Import OpenAI StreamVocabulary.

Section Decoder.
Variable JSON_parse : string -> string + OpenAIStreamChunk.

(** Decoding a line reads neither the promise nor the rate-limit state nor
    the buffer, and leaves all three alone. *)
Lemma processLine_withPromise p line s :
  processLine JSON_parse line (openaiWithPromise p s)
  = (openaiWithPromise p (processLine JSON_parse line s).1,
     (processLine JSON_parse line s).2).
Proof.
  unfold processLine.
  destruct (String.eqb (trim line) ""); [reflexivity |].
  destruct (String.eqb (trim line) doneLine); [reflexivity |].
  destruct (startsWith line "data: "); [| reflexivity].
  destruct (JSON_parse (slice 6 line)) as [msg | data]; [reflexivity |].
  assert (Hmeta : storeMetadata data (openaiWithPromise p s)
                  = openaiWithPromise p (storeMetadata data s)).
  { unfold storeMetadata. simpl. by destruct (String.eqb (responseId s) ""). }
  rewrite Hmeta. destruct (choices data); reflexivity.
Qed.

Lemma openai_processLine_frame line s :
  promise (processLine JSON_parse line s).1 = promise s /\
  rateLimitState (processLine JSON_parse line s).1 = rateLimitState s /\
  buffer (processLine JSON_parse line s).1 = buffer s.
Proof.
  unfold processLine, storeMetadata.
  repeat case_match; simpl; repeat case_match; done.
Qed.

Lemma processLines_withPromise p lines : forall s,
  processLines JSON_parse lines (openaiWithPromise p s)
  = (openaiWithPromise p (processLines JSON_parse lines s).1,
     (processLines JSON_parse lines s).2).
Proof.
  induction lines as [| line rest IH]; intros s; simpl; [done |].
  rewrite processLine_withPromise.
  destruct (processLine JSON_parse line s) as [s1 [msg |]]; simpl; [done | apply IH].
Qed.

Lemma openai_processLines_frame lines : forall s,
  promise (processLines JSON_parse lines s).1 = promise s /\
  rateLimitState (processLines JSON_parse lines s).1 = rateLimitState s /\
  buffer (processLines JSON_parse lines s).1 = buffer s.
Proof.
  induction lines as [| line rest IH]; intros s; simpl; [done |].
  pose proof (openai_processLine_frame line s) as (Hp & Hr & Hb).
  destruct (processLine JSON_parse line s) as [s1 [msg |]]; simpl in *; [done |].
  destruct (IH s1) as (Hp' & Hr' & Hb'). by rewrite Hp', Hr', Hb'.
Qed.

Lemma openai_flushBuffer_frame s :
  promise (flushBuffer JSON_parse s) = promise s /\
  rateLimitState (flushBuffer JSON_parse s) = rateLimitState s.
Proof. unfold flushBuffer. repeat case_match; done. Qed.

Lemma step_withPromise est e p s :
  exists p',
    step JSON_parse est e (openaiWithPromise p s)
    = openaiWithPromise p' (step JSON_parse est e s).
Proof.
  destruct e as [chunk | now | msg]; simpl.
  - unfold on_data.
    change (buffer (openaiWithPromise p s)) with (buffer s).
    change (set_buffer ?b (openaiWithPromise p s))
      with (openaiWithPromise p (set_buffer b s)).
    rewrite processLines_withPromise.
    destruct (processLines JSON_parse _ _) as [s1 [msg |]]; simpl; eauto.
  - unfold on_end, flushBuffer.
    change (buffer (openaiWithPromise p s)) with (buffer s).
    repeat case_match; simpl; eauto.
  - unfold on_error. simpl. eauto.
Qed.

Lemma run_withPromise est events : forall p s,
  exists p',
    run JSON_parse est events (openaiWithPromise p s)
    = openaiWithPromise p' (run JSON_parse est events s).
Proof.
  induction events as [| e rest IH]; intros p s; simpl; [eauto |].
  destruct (step_withPromise est e p s) as (p1 & ->). apply IH.
Qed.

Lemma step_settled est e s r :
  promise s = Some r -> promise (step JSON_parse est e s) = Some r.
Proof.
  intros Hp. destruct e as [chunk | now | msg]; simpl.
  - unfold on_data.
    pose proof (openai_processLines_frame
                  (removelast (split_newline (buffer s +:+ chunk)))
                  (set_buffer (List.last (split_newline (buffer s +:+ chunk)) "") s))
      as (Hp' & _ & _).
    destruct (processLines JSON_parse _ _) as [s1 [msg |]]; simpl in *;
      rewrite Hp'; simpl; by rewrite Hp.
  - unfold on_end. simpl.
    destruct (openai_flushBuffer_frame s) as [-> _]. by rewrite Hp.
  - unfold on_error. simpl. by rewrite Hp.
Qed.

(** X23: the promise of an OpenAI streaming call settles once: whatever
    events follow a resolution or a rejection, the settlement stands. *)
Theorem openai_promise_settles_once est events : forall s r,
  promise s = Some r -> promise (run JSON_parse est events s) = Some r.
Proof.
  induction events as [| e rest IH]; intros s r Hp; simpl; [done |].
  apply IH. by apply step_settled.
Qed.

(** X24: a rejection does not stop the OpenAI decoder. After the promise
    was rejected (a chunk that failed to parse, a transport error), the
    events that still arrive are decoded, handed to the callback and
    metered exactly as they would have been on a pending call. *)
Theorem openai_rejection_does_not_stop_decoding est events s e :
  let failed := run JSON_parse est events (settlePromise (inr e) s) in
  let pending := run JSON_parse est events s in
  calls failed = calls pending /\
  fullContent failed = fullContent pending /\
  rateLimitState failed = rateLimitState pending.
Proof.
  intros failed pending. subst failed pending.
  change (settlePromise (inr e) s)
    with (openaiWithPromise
            (match promise s with Some r0 => Some r0 | None => Some (inr e) end) s).
  destruct (run_withPromise est events
              (match promise s with Some r0 => Some r0 | None => Some (inr e) end) s)
    as (p' & ->).
  done.
Qed.

Lemma openai_run_data_frame est chunks : forall s,
  rateLimitState (run JSON_parse est (map Data chunks) s) = rateLimitState s.
Proof.
  induction chunks as [| chunk rest IH]; intros s; simpl; [done |].
  rewrite IH. unfold on_data.
  pose proof (openai_processLines_frame
                (removelast (split_newline (buffer s +:+ chunk)))
                (set_buffer (List.last (split_newline (buffer s +:+ chunk)) "") s))
    as (_ & Hr & _).
  destruct (processLines JSON_parse _ _) as [s1 [msg |]]; simpl in *; by rewrite Hr.
Qed.

Lemma run_data_unresolved est chunks : forall s,
  OpenAI.resolved s = None ->
  OpenAI.resolved (run JSON_parse est (map Data chunks) s) = None.
Proof.
  induction chunks as [| chunk rest IH]; intros s Hs; simpl; [done |].
  apply IH. unfold on_data.
  pose proof (openai_processLines_frame
                (removelast (split_newline (buffer s +:+ chunk)))
                (set_buffer (List.last (split_newline (buffer s +:+ chunk)) "") s))
    as (Hp & _ & _).
  unfold resolved in *.
  destruct (processLines JSON_parse _ _) as [s1 [msg |]]; simpl in *;
    rewrite Hp; simpl; [| done].
  by destruct (promise s) as [[|] |].
Qed.

(** X25: a streamed OpenAI call that runs to the end of its stream is
    metered once, when the stream ends, with the estimated prompt tokens
    plus one token per four characters of the delivered content, never with
    usage reported by the backend; the response it resolves with reports
    those same numbers as its usage. *)
Theorem openai_stream_metering est now chunks rl :
  let s := run JSON_parse est (map Data chunks ++ [End now]) (initial rl) in
  rateLimitState s
    = BaseProvider.updateRateLimitCounters now (est + estimateTokens (fullContent s)) rl /\
  forall response, OpenAI.resolved s = Some response ->
    content response = fullContent s /\
    usage response
      = mkUsage est (estimateTokens (content response))
          (est + estimateTokens (content response)).
Proof.
  intros s. subst s. rewrite OpenAIContract.openai_run_app. cbn [run step].
  set (s1 := run JSON_parse est (map Data chunks) (initial rl)).
  assert (Hrl : rateLimitState s1 = rl) by apply openai_run_data_frame.
  assert (Hres : OpenAI.resolved s1 = None) by by apply run_data_unresolved.
  destruct (openai_flushBuffer_frame s1) as [Hfp Hfr].
  unfold on_end. simpl. rewrite Hfr, Hrl. split; [reflexivity |].
  intros response. unfold resolved in *. simpl. rewrite Hfp.
  destruct (promise s1) as [[r0 | e] |]; [done | done |].
  intros Hresp. by simplify_eq.
Qed.

End Decoder.
End OpenAIStreamFacts.

(** ** Line buffering *)





Module OpenAIRechunking.
Import OpenAI.

Section Decoder.
Variable JSON_parse : string -> string + OpenAIStreamChunk.





End Decoder.
End OpenAIRechunking.

Module AnthropicStreamFacts.
Import Anthropic.




Section Decoder.
Variable JSON_parse : string -> string + AnthropicStreamChunk.










End Decoder.
End AnthropicStreamFacts.

(** ** Instances *)


Lemma openai_promise_settles_once_witness :
  OpenAI.promise
    (OpenAI.run openaiParse 12 (openaiStream 1700000000000)
       (OpenAI.on_error "socket hang up" (OpenAI.initial (mkRateLimitState 0 0 0 0))))
  = Some (inr (streamError "socket hang up" "stream_error")).
Proof.
  apply (OpenAIStreamFacts.openai_promise_settles_once openaiParse 12
           (openaiStream 1700000000000)).
  reflexivity.
Defined.





